(** * BruteLoops.config: the [Config] object, [configure_logging] and [validate]

    A shallow embedding of [src/BruteLoops/config.py].  The attributes of a
    [Config] are dynamically typed, so they are kept as Python values
    ([PyVal]); the methods mutate [self] and the process-wide state (the
    file system, the SQLite schema bootstrap, the logger named
    ['brute_logger']), so they are written in a small state-and-exception
    monad whose state survives a raise, as an object does in Python.

    What the operating system and SQLAlchemy answer (whether a file can be
    opened, which file a url names, what [create_all] does to it) is not
    fixed here: it is read from the [Machine] the world carries, and the
    theorems hold on every machine. *)

From Stdlib Require Import ZArith String Ascii List Bool Lia.
From Stdlib Require Import Floats.SpecFloat.
From stdpp Require Import base decidable option gmap strings list.

Local Open Scope string_scope.
Local Open Scope Z_scope.

(** ** Python values *)

(** Classes of the values a caller can store in a [Config].  [OtherClass]
    stands for any class not listed: functions, [Jitter] instances,
    subclasses of the builtin ones, exception classes. *)
Inductive pyclass :=
| cls_NoneType
| cls_bool
| cls_int
| cls_float
| cls_str
| cls_list
| cls_dict
| cls_PosixPath
| cls_Callback
| cls_sessionmaker
| OtherClass (name : string).

#[global] Instance pyclass_eq_dec : EqDecision pyclass.
Proof. solve_decision. Defined.

(** Values.  [PyObj cls id truth] is an instance of another class, with its
    identity and the result of [bool()] on it (true unless the class defines
    [__bool__] or [__len__]).  [PyCallback] and [PySessionMaker] are the two
    objects [validate] builds. *)
#[local] Set Warnings "-register-all".
Inductive PyVal :=
| PyNone
| PyBool (b : bool)
| PyInt (z : Z)
| PyFloat (f : spec_float)
| PyStr (s : string)
| PyList (l : list PyVal)
| PyDict (items : list (PyVal * PyVal))
| PyPath (p : string)
| PyObj (cls : string) (id : positive) (truth : bool)
| PyCallback (callback jitter : PyVal)
| PySessionMaker (bind : string).

(** [type(v)], which is also [v.__class__] for these values. *)
Definition class_of (v : PyVal) : pyclass :=
  match v with
  | PyNone => cls_NoneType
  | PyBool _ => cls_bool
  | PyInt _ => cls_int
  | PyFloat _ => cls_float
  | PyStr _ => cls_str
  | PyList _ => cls_list
  | PyDict _ => cls_dict
  | PyPath _ => cls_PosixPath
  | PyObj c _ _ => OtherClass c
  | PyCallback _ _ => cls_Callback
  | PySessionMaker _ => cls_sessionmaker
  end.

Definition class_name (c : pyclass) : string :=
  match c with
  | cls_NoneType => "NoneType"
  | cls_bool => "bool"
  | cls_int => "int"
  | cls_float => "float"
  | cls_str => "str"
  | cls_list => "list"
  | cls_dict => "dict"
  | cls_PosixPath => "pathlib.PosixPath"
  | cls_Callback => "BruteLoops.callback.Callback"
  | cls_sessionmaker => "sqlalchemy.orm.session.sessionmaker"
  | OtherClass n => n
  end.

(** [repr] of a class object, as an f-string prints it. *)
Definition class_repr (c : pyclass) : string :=
  ("<class '" ++ class_name c ++ "'>")%string.

(** Truth value testing: [None], [False], zero of a numeric type and empty
    containers are false. *)
Definition truthy (v : PyVal) : bool :=
  match v with
  | PyNone => false
  | PyBool b => b
  | PyInt z => negb (z =? 0)
  | PyFloat (S754_zero _) => false
  | PyFloat _ => true
  | PyStr s => negb (String.eqb s "")
  | PyList l => match l with [] => false | _ => true end
  | PyDict d => match d with [] => false | _ => true end
  | PyPath _ => true
  | PyObj _ _ t => t
  | PyCallback _ _ => true
  | PySessionMaker _ => true
  end.

(** [a.__class__ == b] on class objects. *)
Definition class_is (v : PyVal) (c : pyclass) : bool :=
  bool_decide (class_of v = c).

(** ** Exceptions and the monad of a method call *)

(** [TypeError] keeps the class of the operand that was refused, [OSError]
    (with its subclasses, [FileNotFoundError], [PermissionError]) the path
    the operating system refused, [SQLAlchemyError] (any exception raised
    inside SQLAlchemy, [OperationalError] among them) the url of the
    engine. *)
Inductive exn :=
| AssertionError (msg : string)
| TypeError (operand : pyclass)
| OSError (path : string)
| SQLAlchemyError (engine_url : string).

Inductive res (A : Type) :=
| Ok (a : A)
| Raise (e : exn).
Arguments Ok {A} a.
Arguments Raise {A} e.

(** ** The [Config] object *)

Record Config := mkConfig {
  process_count : PyVal;
  authentication_callback : PyVal;
  authentication_jitter : PyVal;
  max_auth_jitter : PyVal;
  max_auth_tries : PyVal;
  stop_on_valid : PyVal;
  db_file : PyVal;
  log_valid : PyVal;
  log_invalid : PyVal;
  log_general : PyVal;
  log_file : PyVal;
  log_stdout : PyVal;
  log_stderr : PyVal;
  exception_handlers : PyVal;
  log_level : Z;
  validated : bool;
  (* the attribute does not exist until [validate] assigns it *)
  session_maker : option PyVal
}.

(** [Config.__init__]: every argument is stored as given, [log_level]
    starts at 90 and [validated] at [False]. *)
Definition init (process_count authentication_callback authentication_jitter
    max_auth_jitter max_auth_tries stop_on_valid db_file log_valid log_invalid
    log_general log_file log_stdout log_stderr exception_handlers : PyVal)
  : Config :=
  {| process_count := process_count;
     authentication_callback := authentication_callback;
     authentication_jitter := authentication_jitter;
     max_auth_jitter := max_auth_jitter;
     max_auth_tries := max_auth_tries;
     stop_on_valid := stop_on_valid;
     db_file := db_file;
     log_valid := log_valid;
     log_invalid := log_invalid;
     log_general := log_general;
     log_file := log_file;
     log_stdout := log_stdout;
     log_stderr := log_stderr;
     exception_handlers := exception_handlers;
     log_level := 90;
     validated := false;
     session_maker := None |}.

(** [Config()]: the defaults of the signature of [__init__]. *)
Definition init_default : Config :=
  init (PyInt 1) PyNone PyNone PyNone (PyInt 1) (PyBool false) PyNone
       (PyBool false) (PyBool false) (PyBool false)
       (PyBool false) (PyBool false) (PyBool false) (PyDict []).

(** Attribute assignment. *)
Definition set_authentication_callback (v : PyVal) (c : Config) : Config :=
  {| process_count := process_count c;
     authentication_callback := v;
     authentication_jitter := authentication_jitter c;
     max_auth_jitter := max_auth_jitter c;
     max_auth_tries := max_auth_tries c;
     stop_on_valid := stop_on_valid c;
     db_file := db_file c;
     log_valid := log_valid c;
     log_invalid := log_invalid c;
     log_general := log_general c;
     log_file := log_file c;
     log_stdout := log_stdout c;
     log_stderr := log_stderr c;
     exception_handlers := exception_handlers c;
     log_level := log_level c;
     validated := validated c;
     session_maker := session_maker c |}.

Definition set_max_auth_jitter (v : PyVal) (c : Config) : Config :=
  {| process_count := process_count c;
     authentication_callback := authentication_callback c;
     authentication_jitter := authentication_jitter c;
     max_auth_jitter := v;
     max_auth_tries := max_auth_tries c;
     stop_on_valid := stop_on_valid c;
     db_file := db_file c;
     log_valid := log_valid c;
     log_invalid := log_invalid c;
     log_general := log_general c;
     log_file := log_file c;
     log_stdout := log_stdout c;
     log_stderr := log_stderr c;
     exception_handlers := exception_handlers c;
     log_level := log_level c;
     validated := validated c;
     session_maker := session_maker c |}.

Definition set_max_auth_tries (v : PyVal) (c : Config) : Config :=
  {| process_count := process_count c;
     authentication_callback := authentication_callback c;
     authentication_jitter := authentication_jitter c;
     max_auth_jitter := max_auth_jitter c;
     max_auth_tries := v;
     stop_on_valid := stop_on_valid c;
     db_file := db_file c;
     log_valid := log_valid c;
     log_invalid := log_invalid c;
     log_general := log_general c;
     log_file := log_file c;
     log_stdout := log_stdout c;
     log_stderr := log_stderr c;
     exception_handlers := exception_handlers c;
     log_level := log_level c;
     validated := validated c;
     session_maker := session_maker c |}.

Definition set_exception_handlers (v : PyVal) (c : Config) : Config :=
  {| process_count := process_count c;
     authentication_callback := authentication_callback c;
     authentication_jitter := authentication_jitter c;
     max_auth_jitter := max_auth_jitter c;
     max_auth_tries := max_auth_tries c;
     stop_on_valid := stop_on_valid c;
     db_file := db_file c;
     log_valid := log_valid c;
     log_invalid := log_invalid c;
     log_general := log_general c;
     log_file := log_file c;
     log_stdout := log_stdout c;
     log_stderr := log_stderr c;
     exception_handlers := v;
     log_level := log_level c;
     validated := validated c;
     session_maker := session_maker c |}.

Definition set_log_level (v : Z) (c : Config) : Config :=
  {| process_count := process_count c;
     authentication_callback := authentication_callback c;
     authentication_jitter := authentication_jitter c;
     max_auth_jitter := max_auth_jitter c;
     max_auth_tries := max_auth_tries c;
     stop_on_valid := stop_on_valid c;
     db_file := db_file c;
     log_valid := log_valid c;
     log_invalid := log_invalid c;
     log_general := log_general c;
     log_file := log_file c;
     log_stdout := log_stdout c;
     log_stderr := log_stderr c;
     exception_handlers := exception_handlers c;
     log_level := v;
     validated := validated c;
     session_maker := session_maker c |}.

Definition set_validated (v : bool) (c : Config) : Config :=
  {| process_count := process_count c;
     authentication_callback := authentication_callback c;
     authentication_jitter := authentication_jitter c;
     max_auth_jitter := max_auth_jitter c;
     max_auth_tries := max_auth_tries c;
     stop_on_valid := stop_on_valid c;
     db_file := db_file c;
     log_valid := log_valid c;
     log_invalid := log_invalid c;
     log_general := log_general c;
     log_file := log_file c;
     log_stdout := log_stdout c;
     log_stderr := log_stderr c;
     exception_handlers := exception_handlers c;
     log_level := log_level c;
     validated := v;
     session_maker := session_maker c |}.

Definition set_session_maker (v : PyVal) (c : Config) : Config :=
  {| process_count := process_count c;
     authentication_callback := authentication_callback c;
     authentication_jitter := authentication_jitter c;
     max_auth_jitter := max_auth_jitter c;
     max_auth_tries := max_auth_tries c;
     stop_on_valid := stop_on_valid c;
     db_file := db_file c;
     log_valid := log_valid c;
     log_invalid := log_invalid c;
     log_general := log_general c;
     log_file := log_file c;
     log_stdout := log_stdout c;
     log_stderr := log_stderr c;
     exception_handlers := exception_handlers c;
     log_level := log_level c;
     validated := validated c;
     session_maker := Some v |}.

(** ** The state outside the object *)

(** What the model keeps of an entry of the file system: a SQLite database
    with the credential pairs a run stored in it, a text file with its
    lines, or a directory. *)
Inductive file :=
| Database (records : list (string * string))
| Text (lines : list string)
| Directory.

(** Where a logging handler writes. *)
Inductive dest :=
| ToFile (path : string)
| ToStdout
| ToStderr.

(** A [logging.Handler]: a new one has no formatter and level [NOTSET]. *)
Record Handler := mkHandler {
  h_dest : dest;
  h_formatter : option PyVal;
  h_level : Z
}.

Definition NOTSET : Z := 0.

(** A [logging.Logger]. *)
Record Logger := mkLogger {
  lg_level : Z;
  lg_handlers : list Handler
}.

(** What the machine answers to the calls the methods make on the
    operating system and on SQLAlchemy.  Nothing is assumed of these
    answers.
    - [realpath p]: the entry of the file system the path [p] names (two
      paths can name one file);
    - [can_open p]: whether [open(p, 'a')] succeeds (it does not in a
      missing directory, on a directory, without permission);
    - [can_stat p]: whether [Path(p).exists()] answers rather than raises;
    - [accepts_url u]: whether [create_engine(u)] returns;
    - [database_of u]: the file in which an engine created from [u] keeps
      its database, [None] for a database in memory;
    - [run_create_all u files]: the files after [create_all] on the engine
      of [u], [None] when it raises. *)
Record Machine := mkMachine {
  realpath : string -> string;
  can_open : string -> bool;
  can_stat : string -> bool;
  accepts_url : string -> bool;
  database_of : string -> option string;
  run_create_all : string -> gmap string file -> option (gmap string file)
}.

(** The machine, the entries of its file system (each under the name
    [realpath] gives it), the urls of the engines [create_all] was called
    on, and the logger [logging.getLogger('brute_logger')]. *)
Record World := mkWorld {
  machine : Machine;
  fs : gmap string file;
  create_all_calls : list string;
  brute_logger : Logger
}.

Definition set_fs (files : gmap string file) (w : World) : World :=
  {| machine := machine w;
     fs := files;
     create_all_calls := create_all_calls w;
     brute_logger := brute_logger w |}.

Definition set_create_all_calls (calls : list string) (w : World) : World :=
  {| machine := machine w;
     fs := fs w;
     create_all_calls := calls;
     brute_logger := brute_logger w |}.

Definition set_brute_logger (lg : Logger) (w : World) : World :=
  {| machine := machine w;
     fs := fs w;
     create_all_calls := create_all_calls w;
     brute_logger := lg |}.

(** A method call runs on [self] and the world; both keep the changes made
    before a raise. *)
Definition M (A : Type) : Type := Config * World -> res A * (Config * World).

Definition ret {A} (a : A) : M A := fun st => (Ok a, st).

Definition bind {A B} (m : M A) (k : A -> M B) : M B :=
  fun st =>
    match m st with
    | (Ok a, st') => k a st'
    | (Raise e, st') => (Raise e, st')
    end.

Definition raise {A} (e : exn) : M A := fun st => (Raise e, st).

(** Calling a method on the object [c] in the world [w]: how the call
    ended, the object after it and the world after it. *)
Definition run {A} (m : M A) (c : Config) (w : World)
  : res A * (Config * World) := m (c, w).

Definition outcome {A} (x : res A * (Config * World)) : res A := fst x.
Definition self_after {A} (x : res A * (Config * World)) : Config :=
  fst (snd x).
Definition world_after {A} (x : res A * (Config * World)) : World :=
  snd (snd x).

Declare Scope py_scope.
Delimit Scope py_scope with py.
Notation "x <- m ;; k" := (bind m (fun x => k))
  (at level 100, m at next level, right associativity) : py_scope.
Notation "m ;; k" := (bind m (fun _ => k))
  (at level 100, right associativity) : py_scope.
Local Open Scope py_scope.

(** [self.attr] *)
Definition attr {A} (f : Config -> A) : M A := fun st => (Ok (f (fst st)), st).

(** [self.attr = v], through one of the setters above *)
Definition assign (upd : Config -> Config) : M unit :=
  fun st => (Ok tt, (upd (fst st), snd st)).

Definition get_world {A} (f : World -> A) : M A :=
  fun st => (Ok (f (snd st)), st).

Definition modify_world (upd : World -> World) : M unit :=
  fun st => (Ok tt, (fst st, upd (snd st))).

(** [if cond: body] *)
Definition when (cond : bool) (body : M unit) : M unit :=
  if cond then body else ret tt.

(** [assert cond, msg], as Python runs it without [-O] *)
Definition assert_ (cond : PyVal) (msg : string) : M unit :=
  if truthy cond then ret tt else raise (AssertionError msg).

(** [for x in l: body] *)
Fixpoint for_ {A} (l : list A) (body : A -> M unit) : M unit :=
  match l with
  | [] => ret tt
  | x :: l' => body x ;; for_ l' body
  end.

(** ** Library calls made by the methods *)

(** [os.fspath]: a [str] or a path object names a file, nothing else does. *)
Definition fspath (v : PyVal) : option string :=
  match v with
  | PyStr s => Some s
  | PyPath p => Some p
  | _ => None
  end.

(** The world after a successful [open(p, 'a')]: the file is created,
    empty, when there is none, and an existing one is left as it is. *)
Definition open_append (p : string) (w : World) : World :=
  match fs w !! realpath (machine w) p with
  | Some _ => w
  | None => set_fs (<[realpath (machine w) p := Text []]> (fs w)) w
  end.

(** [open(p, 'a')]: raises [OSError] when the operating system refuses. *)
Definition open_a (p : string) : M unit :=
  fun st =>
    if can_open (machine (snd st)) p
    then (Ok tt, (fst st, open_append p (snd st)))
    else (Raise (OSError p), st).

(** [logging.FileHandler(filename)]: [os.fspath(filename)], then the file is
    opened for appending. *)
Definition FileHandler (filename : PyVal) : M Handler :=
  match fspath filename with
  | Some p =>
      open_a p ;;
      ret {| h_dest := ToFile p; h_formatter := None; h_level := NOTSET |}
  | None => raise (TypeError (class_of filename))
  end.

(** [logging.StreamHandler(stream)] *)
Definition StreamHandler (stream : dest) : Handler :=
  {| h_dest := stream; h_formatter := None; h_level := NOTSET |}.

(** [handler.setFormatter(fmt)] and [handler.setLevel(level)] *)
Definition setFormatter (fmt : PyVal) (h : Handler) : Handler :=
  {| h_dest := h_dest h; h_formatter := Some fmt; h_level := h_level h |}.

Definition setLevel (level : Z) (h : Handler) : Handler :=
  {| h_dest := h_dest h; h_formatter := h_formatter h; h_level := level |}.

(** [logger.addHandler(h)] on the logger ['brute_logger']: a handler that
    was just built is not yet in the list, so it is appended. *)
Definition addHandler (h : Handler) : M unit :=
  modify_world (fun w =>
    set_brute_logger
      {| lg_level := lg_level (brute_logger w);
         lg_handlers := (lg_handlers (brute_logger w) ++ [h])%list |} w).

(** [logger.setLevel(level)] *)
Definition logger_setLevel (level : Z) : M unit :=
  modify_world (fun w =>
    set_brute_logger
      {| lg_level := level;
         lg_handlers := lg_handlers (brute_logger w) |} w).

(** [logger.isEnabledFor(level)] for a logger whose own level is set. *)
Definition isEnabledFor (lg : Logger) (level : Z) : bool :=
  lg_level lg <=? level.

(** The highest level of the [logging] module. *)
Definition CRITICAL : Z := 50.

(** ['literal' + v]: only a [str] can be concatenated to a [str]. *)
Definition str_add (s : string) (v : PyVal) : M string :=
  match v with
  | PyStr t => ret (s ++ t)%string
  | _ => raise (TypeError (class_of v))
  end.

(** An engine, known by the text of the url it was created from. *)
Record Engine := mkEngine { url : string }.

(** [create_engine(u)]: the engine, which opens nothing yet, or the
    exception SQLAlchemy raises on a url it does not accept. *)
Definition create_engine (u : string) : M Engine :=
  fun st =>
    if accepts_url (machine (snd st)) u
    then (Ok {| url := u |}, st)
    else (Raise (SQLAlchemyError u), st).

(** [Session = sessionmaker(); Session.configure(bind=engine)]: the value
    keeps the text the engine it is bound to was created from. *)
Definition sessionmaker_bound (e : Engine) : PyVal := PySessionMaker (url e).

(** [Path(v).exists()] *)
Definition Path_exists (v : PyVal) : M bool :=
  match fspath v with
  | Some p =>
      fun st =>
        if can_stat (machine (snd st)) p
        then (Ok (bool_decide
                    (is_Some (fs (snd st) !! realpath (machine (snd st)) p))),
              st)
        else (Raise (OSError p), st)
  | None => raise (TypeError (class_of v))
  end.

(** [sql.Base.metadata.create_all(engine)]: the call is recorded, and the
    files become what the machine says, unless it raises. *)
Definition create_all (e : Engine) : M unit :=
  modify_world (fun w =>
    set_create_all_calls (create_all_calls w ++ [url e])%list w) ;;
  fun st =>
    match run_create_all (machine (snd st)) (url e) (fs (snd st)) with
    | Some files => (Ok tt, (fst st, set_fs files (snd st)))
    | None => (Raise (SQLAlchemyError (url e)), st)
    end.

(** Modelled from the spec: the class [Callback] of [BruteLoops/callback.py],
    which is not among the sources.  The spec describes it as the callback
    bundled with a jitter by wrapping, one object that embeds the other:
    [Callback(callback, jitter)] is the object holding its two arguments. *)
Definition Callback (callback jitter : PyVal) : PyVal :=
  PyCallback callback jitter.

(** The text of the assertion on [exception_handlers]. *)
Definition nl : string := String (ascii_of_nat 10) EmptyString.

Definition exception_handlers_msg (v : PyVal) : string :=
  ("exception_handlers is intended to be a dictionary, where" ++ nl ++
   "each key is an exception class and the value a function" ++ nl ++
   "which the exception will execute. The current brute object" ++ nl ++
   "will be passed to the function as an argument." ++ nl ++
   "Current type: " ++ class_repr (class_of v))%string.

(** ** The methods *)

(** The constants of [BruteLoops/logging.py] (imported as [BL]), which is
    not among the sources: the three custom levels and the formatter. *)
Record BLModule := mkBL {
  VALID_CREDENTIALS : Z;
  CREDENTIAL_EVENTS : Z;
  GENERAL_EVENTS : Z;
  LOG_FORMAT : PyVal
}.

Section Methods.

Variable BL : BLModule.

(** [Config.configure_logging] *)
Definition configure_logging : M unit :=
  lv <- attr log_valid ;;
  li <- attr log_invalid ;;
  lg <- attr log_general ;;
  if truthy lv || truthy li || truthy lg then
    when (truthy lv) (assign (set_log_level (VALID_CREDENTIALS BL))) ;;
    when (truthy li) (assign (set_log_level (CREDENTIAL_EVENTS BL))) ;;
    when (truthy lg) (assign (set_log_level (GENERAL_EVENTS BL))) ;;
    lf <- attr log_file ;;
    lo <- attr log_stdout ;;
    le <- attr log_stderr ;;
    (if truthy lf || truthy lo || truthy le then
       handlers <- ret (@nil Handler) ;;
       handlers <- (if truthy lf
                    then h <- FileHandler lf ;; ret (handlers ++ [h])%list
                    else ret handlers) ;;
       handlers <- (if truthy lo
                    then ret (handlers ++ [StreamHandler ToStdout])%list
                    else ret handlers) ;;
       handlers <- (if truthy le
                    then ret (handlers ++ [StreamHandler ToStderr])%list
                    else ret handlers) ;;
       for_ handlers (fun handler =>
         let handler := setFormatter (LOG_FORMAT BL) handler in
         level <- attr log_level ;;
         let handler := setLevel level handler in
         addHandler handler)
     else
       let sh := StreamHandler ToStdout in
       let sh := setFormatter (LOG_FORMAT BL) sh in
       addHandler sh) ;;
    level <- attr log_level ;;
    logger_setLevel level
  else
    level <- attr log_level ;;
    logger_setLevel level.

(** [Config.validate] *)
Definition validate : M unit :=
  pc <- attr process_count ;;
  assert_ pc "A Config object requires a process_count" ;;
  assert_ (PyBool (class_is pc cls_int))
          "Process count must be an integer value" ;;
  db <- attr db_file ;;
  assert_ db ("A path to a SQLite database is required. " ++
              "Library will create one should the file itself not yet exist.") ;;
  cb <- attr authentication_callback ;;
  assert_ cb "A callback must be set on the Config object" ;;
  eh <- attr exception_handlers ;;
  when (truthy eh)
       (assert_ (PyBool (class_is eh cls_dict)) (exception_handlers_msg eh)) ;;
  cb <- attr authentication_callback ;;
  aj <- attr authentication_jitter ;;
  assign (set_authentication_callback (Callback cb aj)) ;;
  db <- attr db_file ;;
  u <- str_add "sqlite:///" db ;;
  engine <- create_engine u ;;
  let Session := sessionmaker_bound engine in
  db <- attr db_file ;;
  present <- Path_exists db ;;
  when (negb present) (create_all engine) ;;
  assign (set_session_maker Session) ;;
  configure_logging ;;
  assign (set_validated true).

End Methods.

Arguments configure_logging : simpl never.

(** ** Sample values *)

(** A function object, two [Jitter] instances, an exception class and a set
    of constants for the module [BL]. *)
Definition a_function : PyVal := PyObj "function" 1 true.
Definition a_jitter : PyVal := PyObj "BruteLoops.jitter.Jitter" 2 true.
Definition other_jitter : PyVal := PyObj "BruteLoops.jitter.Jitter" 3 true.
Definition an_exception_class : PyVal := PyObj "type" 5 true.

Definition a_BL : BLModule :=
  {| VALID_CREDENTIALS := 90;
     CREDENTIAL_EVENTS := 80;
     GENERAL_EVENTS := 70;
     LOG_FORMAT := PyObj "logging.Formatter" 4 true |}.

(** One machine, for the examples ([a_machine] below).  Its working
    directory has no directory [nodir], so nothing can be opened under it,
    and every other path can be; paths name themselves.  Its SQLAlchemy
    accepts every url and takes as the database file the text between
    ['sqlite:///'] and the first ['?'], the empty text and [':memory:']
    meaning a database in memory; [create_all] creates a missing database
    file, fills an empty file, is refused where the file cannot be opened
    or is not a database. *)

(** [s] without its first [n] characters, and [s] up to its first ['?']. *)
Fixpoint string_drop (n : nat) (s : string) : string :=
  match n, s with
  | O, _ => s
  | S n', String _ s' => string_drop n' s'
  | S _, EmptyString => EmptyString
  end.

Fixpoint before_query (s : string) : string :=
  match s with
  | EmptyString => EmptyString
  | String a s' =>
      if Ascii.eqb a "?"%char then EmptyString
      else String a (before_query s')
  end.

Definition a_can_open (p : string) : bool := negb (String.prefix "nodir/" p).

Definition a_database_of (u : string) : option string :=
  let d := before_query (string_drop 10 u) in
  if String.eqb d "" || String.eqb d ":memory:" then None else Some d.

Definition a_run_create_all (u : string) (files : gmap string file)
  : option (gmap string file) :=
  match a_database_of u with
  | None => Some files
  | Some p =>
      if a_can_open p then
        match files !! p with
        | None => Some (<[p := Database []]> files)
        | Some (Database _) => Some files
        | Some (Text []) => Some (<[p := Database []]> files)
        | Some (Text _) => None
        | Some Directory => None
        end
      else None
  end.

Definition a_machine : Machine :=
  {| realpath := fun p => p;
     can_open := a_can_open;
     can_stat := fun _ => true;
     accepts_url := fun _ => true;
     database_of := a_database_of;
     run_create_all := a_run_create_all |}.

(** On that machine: a world with no file and a fresh logger; one in which
    the database [attack.db] of an earlier run exists; one in which a file
    named [a?b.db] holds such a database. *)
Definition empty_world : World :=
  {| machine := a_machine;
     fs := ∅;
     create_all_calls := [];
     brute_logger := {| lg_level := NOTSET; lg_handlers := [] |} |}.

Definition resumed_world : World :=
  {| machine := a_machine;
     fs := {[ "attack.db" := Database [("admin", "hunter2")] ]};
     create_all_calls := [];
     brute_logger := {| lg_level := NOTSET; lg_handlers := [] |} |}.



(** [Config(process_count=-1, authentication_callback=f,
    db_file='attack.db')] *)
Definition negative_workers_config : Config :=
  init (PyInt (-1)) a_function PyNone PyNone (PyInt 1) (PyBool false)
       (PyStr "attack.db")
       (PyBool false) (PyBool false) (PyBool false)
       (PyBool false) (PyBool false) (PyBool false) (PyDict []).

(** [Config(authentication_callback=f, max_auth_tries=0,
    db_file='attack.db')] *)
Definition zero_tries_config : Config :=
  init (PyInt 1) a_function PyNone PyNone (PyInt 0) (PyBool false)
       (PyStr "attack.db")
       (PyBool false) (PyBool false) (PyBool false)
       (PyBool false) (PyBool false) (PyBool false) (PyDict []).

(** [Config(authentication_callback=f, db_file=Path('attack.db'))] *)
Definition path_db_config : Config :=
  init (PyInt 1) a_function PyNone PyNone (PyInt 1) (PyBool false)
       (PyPath "attack.db")
       (PyBool false) (PyBool false) (PyBool false)
       (PyBool false) (PyBool false) (PyBool false) (PyDict []).


(** [Config(authentication_callback=f, db_file='attack.db',
    log_valid=True, log_file=True)] *)
Definition log_file_flag_config : Config :=
  init (PyInt 1) a_function PyNone PyNone (PyInt 1) (PyBool false)
       (PyStr "attack.db")
       (PyBool true) (PyBool false) (PyBool false)
       (PyBool true) (PyBool false) (PyBool false) (PyDict []).



(** [Config(authentication_callback=f, authentication_jitter=j1,
    max_auth_jitter=j2, db_file='attack.db')] *)
Definition jitter_config : Config :=
  init (PyInt 1) a_function a_jitter other_jitter (PyInt 1) (PyBool false)
       (PyStr "attack.db")
       (PyBool false) (PyBool false) (PyBool false)
       (PyBool false) (PyBool false) (PyBool false) (PyDict []).

(** [Config(authentication_callback=f, db_file='attack.db',
    exception_handlers=[h])] *)
Definition handler_list_config : Config :=
  init (PyInt 1) a_function PyNone PyNone (PyInt 1) (PyBool false)
       (PyStr "attack.db")
       (PyBool false) (PyBool false) (PyBool false)
       (PyBool false) (PyBool false) (PyBool false) (PyList [a_function]).

(** [Config(authentication_callback=f, db_file='attack.db',
    exception_handlers={E: h})] *)
Definition handler_dict_config : Config :=
  init (PyInt 1) a_function PyNone PyNone (PyInt 1) (PyBool false)
       (PyStr "attack.db")
       (PyBool false) (PyBool false) (PyBool false)
       (PyBool false) (PyBool false) (PyBool false)
       (PyDict [(an_exception_class, a_function)]).

(** [Config(log_invalid=True, log_file='brute.log', log_stderr=True)] *)
Definition logging_config : Config :=
  init (PyInt 1) PyNone PyNone PyNone (PyInt 1) (PyBool false) PyNone
       (PyBool false) (PyBool true) (PyBool false)
       (PyStr "brute.log") (PyBool false) (PyBool true) (PyDict []).

(** [Config(authentication_callback=f, authentication_jitter=j1,
    db_file='attack.db', log_invalid=True, log_file='brute.log',
    log_stderr=True)] *)
Definition full_logging_config : Config :=
  init (PyInt 4) a_function a_jitter PyNone (PyInt 1) (PyBool false)
       (PyStr "attack.db")
       (PyBool false) (PyBool true) (PyBool false)
       (PyStr "brute.log") (PyBool false) (PyBool true) (PyDict []).

(** The same with [stop_on_valid=1], [max_auth_tries=None] and another
    [max_auth_jitter]: values [validate] never looks at. *)
Definition odd_logging_config : Config :=
  init (PyInt 4) a_function a_jitter other_jitter PyNone (PyInt 1)
       (PyStr "attack.db")
       (PyBool false) (PyBool true) (PyBool false)
       (PyStr "brute.log") (PyBool false) (PyBool true) (PyDict []).

(** ** The two phases of [validate] *)

(** The message of the first assertion of [validate] that fails on [c]. *)
Definition failed_assertion (c : Config) : option string :=
  if negb (truthy (process_count c)) then
    Some "A Config object requires a process_count"
  else if negb (class_is (process_count c) cls_int) then
    Some "Process count must be an integer value"
  else if negb (truthy (db_file c)) then
    Some ("A path to a SQLite database is required. " ++
          "Library will create one should the file itself not yet exist.")
  else if negb (truthy (authentication_callback c)) then
    Some "A callback must be set on the Config object"
  else if truthy (exception_handlers c)
          && negb (class_is (exception_handlers c) cls_dict) then
    Some (exception_handlers_msg (exception_handlers c))
  else None.

(** What lines 174 to 180 of [validate] do to the world when [db_file] is
    the [str] [p]: the exception they raise, if any, and the world they
    leave. *)
Definition store_phase (p : string) (w : World) : option exn * World :=
  let u := ("sqlite:///" ++ p)%string in
  if negb (accepts_url (machine w) u) then (Some (SQLAlchemyError u), w)
  else if negb (can_stat (machine w) p) then (Some (OSError p), w)
  else if bool_decide (is_Some (fs w !! realpath (machine w) p))
  then (None, w)
  else
    let w' := set_create_all_calls (create_all_calls w ++ [u])%list w in
    match run_create_all (machine w) u (fs w) with
    | Some files => (None, set_fs files w')
    | None => (Some (SQLAlchemyError u), w')
    end.

Ltac py_unfold :=
  unfold FileHandler, create_all, Path_exists, create_engine, str_add,
    addHandler, logger_setLevel, assert_, when, open_a, Callback,
    sessionmaker_bound, run, bind, ret, raise, attr, assign, get_world,
    modify_world in *.

Ltac py_case :=
  match goal with
  | |- context [truthy ?v] => destruct (truthy v) eqn:?
  | |- context [class_is ?v ?c] => destruct (class_is v c) eqn:?
  | |- context [fspath ?v] => destruct (fspath v) eqn:?
  | |- context [can_open ?m ?p] => destruct (can_open m p) eqn:?
  end.

Ltac py_cases := repeat (py_case; cbn in *; try reflexivity; try discriminate).

Section Phases.

Variable BL : BLModule.

Lemma validate_assertion_fails (c : Config) (w : World) (msg : string) :
  failed_assertion c = Some msg ->
  run (validate BL) c w = (Raise (AssertionError msg), (c, w)).
Proof.
  destruct c as [pc cb aj mj mt sv db lv li lg lf lo le eh ll vd sm].
  unfold failed_assertion, validate. py_unfold. cbn.
  destruct (truthy pc); cbn; [|congruence].
  destruct (class_is pc cls_int); cbn; [|congruence].
  destruct (truthy db); cbn; [|congruence].
  destruct (truthy cb); cbn; [|congruence].
  destruct (truthy eh); cbn; [|congruence].
  destruct (class_is eh cls_dict); cbn; congruence.
Qed.

Lemma validate_after_assertions (c : Config) (w : World) :
  failed_assertion c = None ->
  run (validate BL) c w =
    let c1 := set_authentication_callback
                (Callback (authentication_callback c) (authentication_jitter c))
                c in
    match db_file c with
    | PyStr p =>
        match store_phase p w with
        | (Some e, w1) => (Raise e, (c1, w1))
        | (None, w1) =>
            let c2 := set_session_maker (PySessionMaker ("sqlite:///" ++ p))
                        c1 in
            match run (configure_logging BL) c2 w1 with
            | (Ok _, (c3, w3)) => (Ok tt, (set_validated true c3, w3))
            | (Raise e, st) => (Raise e, st)
            end
        end
    | v => (Raise (TypeError (class_of v)), (c1, w))
    end.
Proof.
  destruct c as [pc cb aj mj mt sv db lv li lg lf lo le eh ll vd sm].
  unfold failed_assertion, validate, store_phase. py_unfold. cbn.
  destruct (truthy pc); cbn; [|congruence].
  destruct (class_is pc cls_int); cbn; [|congruence].
  destruct (truthy db) eqn:Hdb; cbn; [|congruence].
  destruct (truthy cb); cbn; [|congruence].
  destruct (truthy eh); cbn; [destruct (class_is eh cls_dict); cbn|];
    try congruence; intros _.
  all: destruct db as [| | | |s| | | | | |]; cbn in *; try reflexivity.
  all: destruct (accepts_url (machine w) _); cbn; [|reflexivity].
  all: destruct (can_stat (machine w) s); cbn; [|reflexivity].
  all: destruct (bool_decide (is_Some (fs w !! realpath (machine w) s))); cbn.
  all: try destruct (run_create_all (machine w) _ (fs w)); cbn;
         try reflexivity.
  all: match goal with
       | |- context [configure_logging BL ?st] =>
           destruct (configure_logging BL st) as [[|] [? ?]]
       end; reflexivity.
Qed.

(** The store phase leaves the machine and the logger alone, and calls
    [create_all] once at most, when the file is missing. *)
Lemma store_phase_frame (p : string) (w : World) :
  machine (snd (store_phase p w)) = machine w /\
  brute_logger (snd (store_phase p w)) = brute_logger w /\
  (create_all_calls (snd (store_phase p w)) = create_all_calls w \/
   (fs w !! realpath (machine w) p = None /\
    create_all_calls (snd (store_phase p w))
      = (create_all_calls w ++ [("sqlite:///" ++ p)%string])%list)).
Proof.
  unfold store_phase.
  destruct (accepts_url (machine w) _); cbn; [|auto].
  destruct (can_stat (machine w) p); cbn; [|auto].
  case_bool_decide as Hex; cbn; [auto|].
  assert (Hnone : fs w !! realpath (machine w) p = None).
  { destruct (fs w !! realpath (machine w) p) eqn:E; [|reflexivity].
    exfalso. apply Hex. eauto. }
  destruct (run_create_all (machine w) _ (fs w)); cbn; auto.
Qed.


End Phases.

Lemma store_phase_error (p : string) (w w1 : World) (e : exn) :
  store_phase p w = (Some e, w1) ->
  forall msg, e <> AssertionError msg.
Proof.
  unfold store_phase.
  destruct (accepts_url (machine w) _); cbn; [|intros [= <- _]; discriminate].
  destruct (can_stat (machine w) p); cbn; [|intros [= <- _]; discriminate].
  case_bool_decide; cbn; [discriminate|].
  destruct (run_create_all (machine w) _ (fs w)); cbn; [discriminate|].
  intros [= <- _]. discriminate.
Qed.

(** ** Facts about [configure_logging] *)

Lemma open_append_lookup (p q : string) (f : file) (w : World) :
  fs w !! q = Some f -> fs (open_append p w) !! q = Some f.
Proof.
  intros Hq. unfold open_append.
  destruct (fs w !! realpath (machine w) p) eqn:Hp; cbn; [exact Hq|].
  rewrite lookup_insert_ne; [exact Hq|]. congruence.
Qed.

Lemma open_append_create_all_calls (p : string) (w : World) :
  create_all_calls (open_append p w) = create_all_calls w.
Proof.
  unfold open_append. destruct (fs w !! realpath (machine w) p); reflexivity.
Qed.

Lemma open_append_logger (p : string) (w : World) :
  brute_logger (open_append p w) = brute_logger w.
Proof.
  unfold open_append. destruct (fs w !! realpath (machine w) p); reflexivity.
Qed.

Lemma open_append_machine (p : string) (w : World) :
  machine (open_append p w) = machine w.
Proof.
  unfold open_append. destruct (fs w !! realpath (machine w) p); reflexivity.
Qed.

Ltac cl_cases c :=
  destruct c as [pc cb aj mj mt sv db lv li lg lf lo le eh ll vd sm];
  unfold outcome, self_after, world_after, configure_logging;
  py_unfold; cbn;
  repeat (py_case; cbn in *);
  rewrite ?open_append_create_all_calls, ?open_append_logger,
    ?open_append_machine.

Section Logging.

Variable BL : BLModule.

(** [configure_logging] writes no attribute but [log_level], never calls
    [create_all], keeps every file that exists, and raises no
    [AssertionError]. *)
Lemma configure_logging_frame (c : Config) (w : World) :
  let st := run (configure_logging BL) c w in
  self_after st = set_log_level (log_level (self_after st)) c /\
  create_all_calls (world_after st) = create_all_calls w /\
  (forall p f, fs w !! p = Some f -> fs (world_after st) !! p = Some f) /\
  (forall msg, outcome st <> Raise (AssertionError msg)).
Proof.
  cl_cases c.
  all: repeat split; try reflexivity; try congruence.
  all: try (intros; apply open_append_lookup; assumption).
  all: try (intros; discriminate).
  all: intros; assumption.
Qed.

(** [configure_logging] neither reads nor writes [max_auth_tries]. *)
Lemma configure_logging_max_auth_tries (v : PyVal) (c : Config) (w : World) :
  run (configure_logging BL) (set_max_auth_tries v c) w =
  let st := run (configure_logging BL) c w in
  (outcome st, (set_max_auth_tries v (self_after st), world_after st)).
Proof. cl_cases c; reflexivity. Qed.

End Logging.
(** What [configure_logging] does is decided by the six logging flags and
    by [log_level]. *)
Lemma configure_logging_agree
    (BL : BLModule) (c1 c2 : Config) (w : World) :
  log_valid c1 = log_valid c2 ->
  log_invalid c1 = log_invalid c2 ->
  log_general c1 = log_general c2 ->
  log_file c1 = log_file c2 ->
  log_stdout c1 = log_stdout c2 ->
  log_stderr c1 = log_stderr c2 ->
  log_level c1 = log_level c2 ->
  outcome (run (configure_logging BL) c1 w)
    = outcome (run (configure_logging BL) c2 w) /\
  world_after (run (configure_logging BL) c1 w)
    = world_after (run (configure_logging BL) c2 w) /\
  log_level (self_after (run (configure_logging BL) c1 w))
    = log_level (self_after (run (configure_logging BL) c2 w)).
Proof.
  destruct c1 as [pc1 cb1 aj1 mj1 mt1 sv1 db1 lv1 li1 lg1 lf1 lo1 le1 eh1
                    ll1 vd1 sm1].
  destruct c2 as [pc2 cb2 aj2 mj2 mt2 sv2 db2 lv2 li2 lg2 lf2 lo2 le2 eh2
                    ll2 vd2 sm2].
  cbn. intros -> -> -> -> -> -> ->.
  unfold outcome, self_after, world_after, configure_logging.
  py_unfold. cbn.
  repeat (py_case; cbn in *); repeat split; reflexivity.
Qed.

(** ** The constructor *)

Lemma init_log_level
    (a1 a2 a3 a4 a5 a6 a7 a8 a9 a10 a11 a12 a13 a14 : PyVal) :
  log_level (init a1 a2 a3 a4 a5 a6 a7 a8 a9 a10 a11 a12 a13 a14) = 90.
Proof. reflexivity. Qed.

(** C10. A [Config] built with no argument has [process_count = 1],
    [max_auth_tries = 1], [stop_on_valid = False], an empty
    [exception_handlers] dict, the six logging flags off,
    [validated = False], no [db_file] and no [authentication_callback]; and
    [validate] on it fails in every world, at the assertion on [db_file],
    leaving the object and the world as they were. *)
Theorem init_default_fails_validation :
  process_count init_default = PyInt 1 /\
  max_auth_tries init_default = PyInt 1 /\
  stop_on_valid init_default = PyBool false /\
  exception_handlers init_default = PyDict [] /\
  log_valid init_default = PyBool false /\
  log_invalid init_default = PyBool false /\
  log_general init_default = PyBool false /\
  log_file init_default = PyBool false /\
  log_stdout init_default = PyBool false /\
  log_stderr init_default = PyBool false /\
  validated init_default = false /\
  db_file init_default = PyNone /\
  authentication_callback init_default = PyNone /\
  forall (BL : BLModule) (w : World),
    run (validate BL) init_default w =
      (Raise (AssertionError
                ("A path to a SQLite database is required. " ++
                 "Library will create one should the file itself not yet exist.")),
       (init_default, w)).
Proof.
  repeat (split; [reflexivity|]).
  intros BL w. apply validate_assertion_fails. reflexivity.
Qed.

(** ** The assertions of [validate] *)

(** C1. When the authentication callback, [db_file] or [process_count] is
    unset ([None], or any value Python reads as false), [validate] raises an
    [AssertionError] and leaves the object and the world exactly as they
    were: no engine or session exists, nothing can be dispatched, and
    [validated] is not set. *)
Theorem validate_requires_parameters (BL : BLModule) (c : Config) (w : World) :
  truthy (authentication_callback c) = false \/
  truthy (db_file c) = false \/
  truthy (process_count c) = false ->
  exists msg, run (validate BL) c w = (Raise (AssertionError msg), (c, w)).
Proof.
  intros H.
  assert (Hf : exists msg, failed_assertion c = Some msg).
  { unfold failed_assertion.
    destruct (truthy (process_count c)); cbn; [|eauto].
    destruct (class_is (process_count c) cls_int); cbn; [|eauto].
    destruct (truthy (db_file c)); cbn; [|eauto].
    destruct (truthy (authentication_callback c)); cbn; [|eauto].
    exfalso. intuition congruence. }
  destruct Hf as [msg Hf]. exists msg.
  apply validate_assertion_fails. exact Hf.
Qed.

Lemma validate_requires_parameters_witness :
  authentication_callback init_default = PyNone /\
  exists msg,
    run (validate a_BL) init_default empty_world =
      (Raise (AssertionError msg), (init_default, empty_world)).
Proof.
  split; [reflexivity|].
  apply (validate_requires_parameters a_BL init_default empty_world).
  left. reflexivity.
Defined.

(** [validate] raises an [AssertionError] exactly when one of its
    assertions fails, with the message of the first that does. *)
Lemma validate_assertion_error_iff
    (BL : BLModule) (c : Config) (w : World) (msg : string) :
  outcome (run (validate BL) c w) = Raise (AssertionError msg) <->
  failed_assertion c = Some msg.
Proof.
  split.
  - destruct (failed_assertion c) as [m|] eqn:Hf.
    + rewrite (validate_assertion_fails BL c w m Hf). cbn. congruence.
    + rewrite (validate_after_assertions BL c w Hf). cbn.
      destruct (db_file c) as [| | | |p| | | | | |]; cbn; try discriminate.
      destruct (store_phase p w) as [[e|] w1] eqn:Hs; cbn.
      { intros [= ->]. exfalso.
        apply (store_phase_error p w w1 _ Hs msg). reflexivity. }
      match goal with
      | |- context [run (configure_logging BL) ?c2 ?w1] =>
          pose proof (configure_logging_frame BL c2 w1) as (_ & _ & _ & Hne);
          destruct (run (configure_logging BL) c2 w1) as [[|e] [c3 w3]]
      end; cbn in *; [discriminate|].
      intros He. exfalso. apply (Hne msg). exact He.
  - intros Hf. rewrite (validate_assertion_fails BL c w msg Hf). reflexivity.
Qed.

Lemma exception_handlers_msg_head (v : PyVal) :
  exists s, exception_handlers_msg v = String "e" s.
Proof. eexists. reflexivity. Qed.

(** C2, as the code has it. The check of [validate] on the worker count is
    the pair of assertions on [process_count]; one of them fails exactly
    when [process_count] is not a non-zero value of class [int].  So [None],
    zero, floats, booleans and strings are refused, and every non-zero
    integer passes, the negative ones included: the code does not test the
    sign. *)
Theorem process_count_check (BL : BLModule) (c : Config) (w : World) :
  (outcome (run (validate BL) c w) =
     Raise (AssertionError "A Config object requires a process_count") \/
   outcome (run (validate BL) c w) =
     Raise (AssertionError "Process count must be an integer value"))
  <-> ~ (exists z, process_count c = PyInt z /\ z <> 0).
Proof.
  rewrite !validate_assertion_error_iff.
  destruct (exception_handlers_msg_head (exception_handlers c)) as [t Ht].
  unfold failed_assertion. rewrite Ht. clear Ht.
  destruct (process_count c) as [|b|z|f| | | | | | |]; cbn.
  3: { destruct (Z.eqb_spec z 0) as [->|Hz]; cbn.
       - split; [intros _ [z' [Hz' Hnz]]; congruence | auto].
       - change (class_is (PyInt z) cls_int) with true. cbn. split.
         + intros [H|H]; exfalso;
             repeat match type of H with
                    | (if ?b then _ else _) = _ => destruct b
                    end; discriminate.
         + intros Hn. exfalso. apply Hn. eauto. }
  all: split; [intros _ [z' [Hz' _]]; discriminate | intros _].
  all: try match goal with
           | |- context [class_is ?v cls_int] =>
               change (class_is v cls_int) with false; cbn
           end.
  all: repeat match goal with
              | |- context [if negb ?b then _ else _] => destruct b; cbn
              | |- context [match ?f with S754_zero _ => _ | _ => _ end] =>
                  destruct f; cbn
              end.
  all: auto.
Qed.

(** The claim fails at [process_count = -1]: the configuration validates. *)
Lemma negative_process_count_validates :
  process_count negative_workers_config = PyInt (-1) /\
  outcome (run (validate a_BL) negative_workers_config empty_world) = Ok tt /\
  validated (self_after (run (validate a_BL) negative_workers_config
                             empty_world)) = true.
Proof. vm_compute. auto. Qed.

(** ** What [validate] writes *)

(** Of the attributes set by the constructor, [validate] writes
    [authentication_callback] and [log_level] only. *)
Lemma validate_frame (BL : BLModule) (c : Config) (w : World) :
  let c' := self_after (run (validate BL) c w) in
  process_count c' = process_count c /\
  authentication_jitter c' = authentication_jitter c /\
  max_auth_jitter c' = max_auth_jitter c /\
  max_auth_tries c' = max_auth_tries c /\
  stop_on_valid c' = stop_on_valid c /\
  db_file c' = db_file c /\
  exception_handlers c' = exception_handlers c.
Proof.
  cbv zeta.
  destruct (failed_assertion c) as [m|] eqn:Hf.
  - rewrite (validate_assertion_fails BL c w m Hf). cbn. auto 10.
  - rewrite (validate_after_assertions BL c w Hf). cbn.
    destruct (db_file c) as [| | | |p| | | | | |] eqn:Hdb; cbn; auto 10.
    destruct (store_phase p w) as [[e|] w1]; cbn; auto 10.
    match goal with
    | |- context [run (configure_logging BL) ?c2 ?w1] =>
        pose proof (configure_logging_frame BL c2 w1) as (Hc & _);
        destruct (run (configure_logging BL) c2 w1) as [[|e] [c3 w3]]
    end; cbn in *; rewrite Hc; cbn; auto 10.
Qed.

(** C3, as the code has it. [validate] has no check on [max_auth_tries]:
    it neither reads nor writes the attribute, so a configuration validates
    or fails, with the same effects, whatever [max_auth_tries] holds. *)
Theorem validate_ignores_max_auth_tries
    (BL : BLModule) (v : PyVal) (c : Config) (w : World) :
  run (validate BL) (set_max_auth_tries v c) w =
    (outcome (run (validate BL) c w),
     (set_max_auth_tries v (self_after (run (validate BL) c w)),
      world_after (run (validate BL) c w))) /\
  max_auth_tries (self_after (run (validate BL) c w)) = max_auth_tries c.
Proof.
  split; [|apply (validate_frame BL c w)].
  assert (Hsame : failed_assertion (set_max_auth_tries v c)
                  = failed_assertion c) by reflexivity.
  destruct (failed_assertion c) as [m|] eqn:Hf.
  - rewrite (validate_assertion_fails BL _ w m Hsame).
    rewrite (validate_assertion_fails BL c w m Hf). reflexivity.
  - rewrite (validate_after_assertions BL _ w Hsame).
    rewrite (validate_after_assertions BL c w Hf). cbn.
    destruct (db_file c) as [| | | |p| | | | | |]; try reflexivity.
    cbv zeta.
    destruct (store_phase p w) as [[e|] w1]; [reflexivity|].
    match goal with
    | |- context [run (configure_logging BL)
                      (set_session_maker ?s (set_authentication_callback ?k
                         (set_max_auth_tries v c))) ?w1] =>
        change (set_session_maker s (set_authentication_callback k
                  (set_max_auth_tries v c)))
          with (set_max_auth_tries v
                  (set_session_maker s (set_authentication_callback k c)));
        rewrite (configure_logging_max_auth_tries BL v
                   (set_session_maker s (set_authentication_callback k c)) w1);
        destruct (run (configure_logging BL)
                      (set_session_maker s (set_authentication_callback k c))
                      w1) as [[|e] [c3 w3]]
    end; reflexivity.
Qed.

(** The claim fails at [max_auth_tries = 0]: the configuration validates. *)
Lemma zero_max_auth_tries_validates :
  max_auth_tries zero_tries_config = PyInt 0 /\
  outcome (run (validate a_BL) zero_tries_config empty_world) = Ok tt /\
  validated (self_after (run (validate a_BL) zero_tries_config
                             empty_world)) = true.
Proof. vm_compute. auto. Qed.

(** C4, as the code has it. A raise at one of the assertions leaves the
    object and the world exactly as they were: the callback is not wrapped,
    [session_maker] is not created, [validated] keeps its value.  Any later
    raise (the [TypeError] of the concatenation when [db_file] is not a
    [str], or of [FileHandler], an error of the operating system or of
    SQLAlchemy) finds the callback already wrapped, and still leaves
    [validated] as it was.  [validate] sets [validated] to [True] when, and
    only when, it runs to its end. *)
Theorem validate_atomic_on_assertion
    (BL : BLModule) (c : Config) (w : World) :
  match outcome (run (validate BL) c w) with
  | Raise (AssertionError _) =>
      self_after (run (validate BL) c w) = c /\
      world_after (run (validate BL) c w) = w
  | Raise _ =>
      validated (self_after (run (validate BL) c w)) = validated c /\
      authentication_callback (self_after (run (validate BL) c w)) =
        Callback (authentication_callback c) (authentication_jitter c)
  | Ok _ =>
      validated (self_after (run (validate BL) c w)) = true
  end.
Proof.
  destruct (failed_assertion c) as [m|] eqn:Hf.
  - rewrite (validate_assertion_fails BL c w m Hf). cbn. auto.
  - rewrite (validate_after_assertions BL c w Hf). cbn.
    destruct (db_file c) as [| | | |p| | | | | |] eqn:Hdb; cbn; auto.
    destruct (store_phase p w) as [[e|] w1] eqn:Hs; cbn.
    { pose proof (store_phase_error p w w1 e Hs) as Hne.
      destruct e as [msg| | |]; auto. exfalso. apply (Hne msg). reflexivity. }
    match goal with
    | |- context [run (configure_logging BL) ?c2 ?w1] =>
        pose proof (configure_logging_frame BL c2 w1) as (Hc & _ & _ & Hne);
        destruct (run (configure_logging BL) c2 w1) as [[|e] [c3 w3]]
    end; cbn in *; [reflexivity|].
    destruct e as [msg| | |]; [exfalso; apply (Hne msg); reflexivity| | |].
    all: rewrite Hc; cbn; auto.
Qed.

(** The claim fails at [db_file = Path('attack.db')]: [validate] raises,
    and the callback of the object has been replaced by its wrapper. *)
Lemma validate_raises_after_wrapping :
  outcome (run (validate a_BL) path_db_config empty_world)
    = Raise (TypeError cls_PosixPath) /\
  authentication_callback path_db_config = a_function /\
  authentication_callback
    (self_after (run (validate a_BL) path_db_config empty_world))
    = PyCallback a_function PyNone /\
  authentication_callback
    (self_after (run (validate a_BL) path_db_config empty_world))
    <> authentication_callback path_db_config.
Proof. vm_compute. repeat split; discriminate. Qed.

(** ** The store *)




(** ** The handler table *)

(** [configure_logging] neither reads nor writes [exception_handlers]. *)
Lemma configure_logging_exception_handlers
    (BL : BLModule) (v : PyVal) (c : Config) (w : World) :
  run (configure_logging BL) (set_exception_handlers v c) w =
  let st := run (configure_logging BL) c w in
  (outcome st, (set_exception_handlers v (self_after st), world_after st)).
Proof. cl_cases c; reflexivity. Qed.

(** [validate] does the same on two objects that differ by an attribute
    [upd] writes, when the assertions, the store and [configure_logging]
    do not see the difference. *)
Lemma validate_commutes
    (BL : BLModule) (upd : Config -> Config) (c : Config) (w : World) :
  failed_assertion (upd c) = failed_assertion c ->
  db_file (upd c) = db_file c ->
  authentication_callback (upd c) = authentication_callback c ->
  authentication_jitter (upd c) = authentication_jitter c ->
  (forall k x, set_authentication_callback k (upd x)
               = upd (set_authentication_callback k x)) ->
  (forall k x, set_session_maker k (upd x) = upd (set_session_maker k x)) ->
  (forall k x, set_validated k (upd x) = upd (set_validated k x)) ->
  (forall x w0, run (configure_logging BL) (upd x) w0 =
                (outcome (run (configure_logging BL) x w0),
                 (upd (self_after (run (configure_logging BL) x w0)),
                  world_after (run (configure_logging BL) x w0)))) ->
  run (validate BL) (upd c) w =
    (outcome (run (validate BL) c w),
     (upd (self_after (run (validate BL) c w)),
      world_after (run (validate BL) c w))).
Proof.
  intros Hsame Hdb Hcb Haj Hk Hs Hv Hcl.
  destruct (failed_assertion c) as [m|] eqn:Hf.
  - rewrite (validate_assertion_fails BL _ w m Hsame).
    rewrite (validate_assertion_fails BL c w m Hf). reflexivity.
  - rewrite (validate_after_assertions BL _ w Hsame).
    rewrite (validate_after_assertions BL c w Hf).
    cbv zeta. rewrite Hdb, Hcb, Haj, Hk.
    destruct (db_file c) as [| | | |p| | | | | |]; try reflexivity.
    destruct (store_phase p w) as [[e|] w1]; [reflexivity|].
    rewrite Hs, Hcl.
    destruct (run (configure_logging BL) _ w1) as [[[]|e] [c3 w3]];
      cbn; rewrite ?Hv; reflexivity.
Qed.

(** C6. A non-empty [exception_handlers] that is not a [dict] makes
    [validate] fail, before anything is written.  With a [dict], whatever
    it holds, the check passes: [validate] does exactly what it does with
    the empty default, for which the check is skipped; it returns or raises
    alike, with the same effects, and an [AssertionError] it raises is one
    of the four on the required parameters. *)
Theorem validate_exception_handlers_check
    (BL : BLModule) (c : Config) (w : World) :
  (truthy (exception_handlers c) = true ->
   class_of (exception_handlers c) <> cls_dict ->
   exists msg, run (validate BL) c w = (Raise (AssertionError msg), (c, w)))
  /\
  (forall items, exception_handlers c = PyDict items ->
   run (validate BL) c w =
     (outcome (run (validate BL) (set_exception_handlers (PyDict []) c) w),
      (set_exception_handlers (PyDict items)
         (self_after
            (run (validate BL) (set_exception_handlers (PyDict []) c) w)),
       world_after
         (run (validate BL) (set_exception_handlers (PyDict []) c) w))))
  /\
  (forall items msg, exception_handlers c = PyDict items ->
   outcome (run (validate BL) c w) = Raise (AssertionError msg) ->
   msg = "A Config object requires a process_count" \/
   msg = "Process count must be an integer value" \/
   msg = ("A path to a SQLite database is required. " ++
          "Library will create one should the file itself not yet exist.") \/
   msg = "A callback must be set on the Config object").
Proof.
  split; [|split].
  - intros Ht Hc.
    assert (Hf : exists msg, failed_assertion c = Some msg).
    { unfold failed_assertion.
      repeat match goal with
             | |- context [if negb ?b then _ else _] => destruct b; cbn; eauto
             end.
      rewrite Ht. unfold class_is.
      rewrite bool_decide_eq_false_2 by assumption. cbn. eauto. }
    destruct Hf as [msg Hf]. exists msg.
    apply validate_assertion_fails. exact Hf.
  - intros items Hd.
    transitivity
      (run (validate BL)
         (set_exception_handlers (PyDict items)
            (set_exception_handlers (PyDict []) c)) w).
    { f_equal. destruct c; cbn in *; subst; reflexivity. }
    apply validate_commutes; try reflexivity.
    + unfold failed_assertion. cbn.
      change (class_is (PyDict items) cls_dict) with true.
      change (class_is (PyDict []) cls_dict) with true.
      rewrite !andb_false_r. reflexivity.
    + intros x w0. apply configure_logging_exception_handlers.
  - intros items msg Hd Hout.
    apply validate_assertion_error_iff in Hout.
    destruct (exception_handlers_msg_head (exception_handlers c)) as [t Ht].
    revert Hout. unfold failed_assertion. rewrite Ht, Hd.
    change (class_is (PyDict items) cls_dict) with true.
    rewrite andb_false_r.
    repeat match goal with
           | |- context [if negb ?b then _ else _] => destruct b; cbn
           end; intros [= <-]; auto.
Qed.

Lemma validate_exception_handlers_check_witness :
  (exists msg,
     run (validate a_BL) handler_list_config empty_world
       = (Raise (AssertionError msg), (handler_list_config, empty_world)))
  /\
  outcome (run (validate a_BL) handler_dict_config empty_world) = Ok tt.
Proof.
  split.
  - apply (proj1 (validate_exception_handlers_check a_BL handler_list_config
                    empty_world)).
    + reflexivity.
    + discriminate.
  - rewrite (proj1 (proj2 (validate_exception_handlers_check a_BL
                             handler_dict_config empty_world))
               [(an_exception_class, a_function)] eq_refl).
    vm_compute. reflexivity.
Defined.

(** ** The two jitters *)

Lemma configure_logging_max_auth_jitter
    (BL : BLModule) (v : PyVal) (c : Config) (w : World) :
  run (configure_logging BL) (set_max_auth_jitter v c) w =
  let st := run (configure_logging BL) c w in
  (outcome st, (set_max_auth_jitter v (self_after st), world_after st)).
Proof. cl_cases c; reflexivity. Qed.

(** [validate] does not read [max_auth_jitter]. *)
Lemma validate_max_auth_jitter
    (BL : BLModule) (v : PyVal) (c : Config) (w : World) :
  run (validate BL) (set_max_auth_jitter v c) w =
    (outcome (run (validate BL) c w),
     (set_max_auth_jitter v (self_after (run (validate BL) c w)),
      world_after (run (validate BL) c w))).
Proof.
  assert (Hsame : failed_assertion (set_max_auth_jitter v c)
                  = failed_assertion c) by reflexivity.
  destruct (failed_assertion c) as [m|] eqn:Hf.
  - rewrite (validate_assertion_fails BL _ w m Hsame).
    rewrite (validate_assertion_fails BL c w m Hf). reflexivity.
  - rewrite (validate_after_assertions BL _ w Hsame).
    rewrite (validate_after_assertions BL c w Hf). cbn.
    destruct (db_file c) as [| | | |p| | | | | |]; try reflexivity.
    cbv zeta.
    destruct (store_phase p w) as [[e|] w1]; [reflexivity|].
    match goal with
    | |- context [run (configure_logging BL)
                      (set_session_maker ?s (set_authentication_callback ?k
                         (set_max_auth_jitter v c))) ?w1] =>
        change (set_session_maker s (set_authentication_callback k
                  (set_max_auth_jitter v c)))
          with (set_max_auth_jitter v
                  (set_session_maker s (set_authentication_callback k c)));
        rewrite (configure_logging_max_auth_jitter BL v
                   (set_session_maker s (set_authentication_callback k c)) w1);
        destruct (run (configure_logging BL)
                      (set_session_maker s (set_authentication_callback k c))
                      w1) as [[|e] [c3 w3]]
    end; reflexivity.
Qed.

(** C7. When [validate] returns, the callback of the object is the wrapper
    of the original callback and of [authentication_jitter], and of nothing
    else: the wrapper is the same whatever [max_auth_jitter] holds.  Both
    jitter attributes are left as they were, [max_auth_jitter] in its own
    attribute. *)
Theorem validate_keeps_jitters_apart
    (BL : BLModule) (c c' : Config) (w w' : World) :
  run (validate BL) c w = (Ok tt, (c', w')) ->
  authentication_callback c'
    = Callback (authentication_callback c) (authentication_jitter c) /\
  max_auth_jitter c' = max_auth_jitter c /\
  authentication_jitter c' = authentication_jitter c /\
  (forall j,
     authentication_callback
       (self_after (run (validate BL) (set_max_auth_jitter j c) w))
     = authentication_callback c').
Proof.
  intros Hrun.
  pose proof (validate_frame BL c w) as (_ & Haj & Hmj & _).
  rewrite Hrun in Haj, Hmj. cbn in Haj, Hmj.
  assert (Hcb : authentication_callback c'
                = Callback (authentication_callback c)
                           (authentication_jitter c)).
  { destruct (failed_assertion c) as [m|] eqn:Hf.
    - rewrite (validate_assertion_fails BL c w m Hf) in Hrun. discriminate.
    - rewrite (validate_after_assertions BL c w Hf) in Hrun. cbn in Hrun.
      destruct (db_file c) as [| | | |p| | | | | |]; try discriminate.
      destruct (store_phase p w) as [[e0|] w1]; [discriminate|].
      match type of Hrun with
      | context [run (configure_logging BL) ?c2 ?w1] =>
          pose proof (configure_logging_frame BL c2 w1) as (Hc & _);
          destruct (run (configure_logging BL) c2 w1) as [[|e] [c3 w3]]
      end; cbn in *; [|discriminate].
      injection Hrun as <- <-. rewrite Hc. reflexivity. }
  repeat split; try assumption.
  intros j. rewrite validate_max_auth_jitter, Hrun. reflexivity.
Qed.

Lemma validate_keeps_jitters_apart_witness :
  authentication_callback
    (self_after (run (validate a_BL) jitter_config empty_world))
    = Callback a_function a_jitter /\
  max_auth_jitter (self_after (run (validate a_BL) jitter_config empty_world))
    = other_jitter /\
  authentication_jitter
    (self_after (run (validate a_BL) jitter_config empty_world))
    = a_jitter /\
  (forall j,
     authentication_callback
       (self_after (run (validate a_BL) (set_max_auth_jitter j jitter_config)
                        empty_world))
     = authentication_callback
         (self_after (run (validate a_BL) jitter_config empty_world))).
Proof.
  apply (validate_keeps_jitters_apart a_BL jitter_config
           (self_after (run (validate a_BL) jitter_config empty_world))
           empty_world
           (world_after (run (validate a_BL) jitter_config empty_world))).
  vm_compute. reflexivity.
Defined.

(** ** Logging *)

(** C8. After [configure_logging], [log_level] is [GENERAL_EVENTS] when
    [log_general] is set, else [CREDENTIAL_EVENTS] when [log_invalid] is
    set, else [VALID_CREDENTIALS] when [log_valid] is set, else what it was.
    When no flag is set the call returns, changes nothing in the object,
    adds no handler and sets the level of the logger to [log_level]; with
    the value 90 of the constructor, the logger then passes no record of a
    level up to [CRITICAL]. *)
Theorem configure_logging_level_precedence
    (BL : BLModule) (c : Config) (w : World) :
  log_level (self_after (run (configure_logging BL) c w)) =
    (if truthy (log_general c) then GENERAL_EVENTS BL
     else if truthy (log_invalid c) then CREDENTIAL_EVENTS BL
     else if truthy (log_valid c) then VALID_CREDENTIALS BL
     else log_level c) /\
  (truthy (log_general c) = false ->
   truthy (log_invalid c) = false ->
   truthy (log_valid c) = false ->
   outcome (run (configure_logging BL) c w) = Ok tt /\
   self_after (run (configure_logging BL) c w) = c /\
   lg_handlers (brute_logger (world_after (run (configure_logging BL) c w)))
     = lg_handlers (brute_logger w) /\
   lg_level (brute_logger (world_after (run (configure_logging BL) c w)))
     = log_level c /\
   (log_level c = 90 ->
    forall level, level <= CRITICAL ->
      isEnabledFor
        (brute_logger (world_after (run (configure_logging BL) c w))) level
      = false)).
Proof.
  split.
  - cl_cases c; reflexivity.
  - intros Hg Hi Hv.
    destruct c as [pc cb aj mj mt sv db lv li lg lf lo le eh ll vd sm].
    cbn in Hg, Hi, Hv.
    unfold outcome, self_after, world_after, configure_logging, isEnabledFor.
    py_unfold. cbn. rewrite Hg, Hi, Hv. cbn.
    repeat split.
    intros -> level Hle. unfold CRITICAL in Hle.
    apply Z.leb_gt. lia.
Qed.

Lemma configure_logging_level_precedence_witness :
  log_level (self_after (run (configure_logging a_BL) logging_config
                             empty_world)) = CREDENTIAL_EVENTS a_BL /\
  log_level (self_after (run (configure_logging a_BL) init_default
                             empty_world)) = 90 /\
  lg_level (brute_logger (world_after (run (configure_logging a_BL)
                                           init_default empty_world))) = 90 /\
  isEnabledFor
    (brute_logger (world_after (run (configure_logging a_BL) init_default
                                    empty_world))) CRITICAL = false.
Proof.
  pose proof (configure_logging_level_precedence a_BL logging_config
                empty_world) as [Hlevel _].
  pose proof (configure_logging_level_precedence a_BL init_default
                empty_world) as [_ Hoff].
  destruct (Hoff eq_refl eq_refl eq_refl) as (_ & Hself & _ & Hlg & Hdis).
  split; [exact Hlevel|].
  split; [rewrite Hself; reflexivity|].
  split; [exact Hlg|].
  apply Hdis; [reflexivity | unfold CRITICAL; lia].
Defined.




(** * Further properties of the two methods *)

(** ** [configure_logging]: files, raises, repeated calls *)

Lemma open_append_lookup_full (p q : string) (w : World) :
  fs (open_append p w) !! q =
    match fs w !! q with
    | Some f => Some f
    | None =>
        if bool_decide (realpath (machine w) p = q) then Some (Text [])
        else None
    end.
Proof.
  unfold open_append.
  destruct (fs w !! realpath (machine w) p) eqn:Hp; cbn.
  - destruct (fs w !! q) eqn:Hq; [reflexivity|].
    case_bool_decide; [congruence|reflexivity].
  - case_bool_decide as Hpq.
    + subst q. rewrite Hp. apply lookup_insert_eq.
    + rewrite lookup_insert_ne by assumption.
      destruct (fs w !! q); reflexivity.
Qed.

(** Opening the log file again, in a world that has the files the first
    opening left, changes no file. *)
Lemma open_append_again (p : string) (w w2 : World) :
  machine w2 = machine w ->
  fs w2 = fs (open_append p w) ->
  fs (open_append p w2) = fs (open_append p w).
Proof.
  intros Hm Hfs. unfold open_append at 1.
  rewrite Hm, Hfs, open_append_lookup_full.
  destruct (fs w !! realpath (machine w) p); [exact Hfs|].
  rewrite bool_decide_eq_true_2 by reflexivity. exact Hfs.
Qed.

(** X5. [configure_logging] touches one file at most, the log file: a file
    that exists is kept as it is, and the only file it can create, empty, is
    the one [log_file] names, which it does create when a level flag and
    [log_file] are set and the file can be opened. *)
Theorem configure_logging_files
    (BL : BLModule) (c : Config) (w : World) (q : string) :
  fs (world_after (run (configure_logging BL) c w)) !! q =
    match fs w !! q with
    | Some f => Some f
    | None =>
        if (truthy (log_valid c) || truthy (log_invalid c)
            || truthy (log_general c))
           && truthy (log_file c)
           && match fspath (log_file c) with
              | Some p =>
                  can_open (machine w) p
                  && bool_decide (realpath (machine w) p = q)
              | None => false
              end
        then Some (Text [])
        else None
    end.
Proof.
  cl_cases c.
  all: rewrite ?open_append_lookup_full.
  all: destruct (fs w !! q); try reflexivity.
  all: repeat case_bool_decide; congruence.
Qed.



(** A second call, on an object with the flags of the first and the
    [log_level] the first call left, returns, leaves [log_level] and the
    files as they are and adds the handlers of the first call once more. *)
Lemma configure_logging_again
    (BL : BLModule) (c c2 : Config) (w : World) :
  outcome (run (configure_logging BL) c w) = Ok tt ->
  log_valid c2 = log_valid c ->
  log_invalid c2 = log_invalid c ->
  log_general c2 = log_general c ->
  log_file c2 = log_file c ->
  log_stdout c2 = log_stdout c ->
  log_stderr c2 = log_stderr c ->
  log_level c2 = log_level (self_after (run (configure_logging BL) c w)) ->
  let w' := world_after (run (configure_logging BL) c w) in
  outcome (run (configure_logging BL) c2 w') = Ok tt /\
  self_after (run (configure_logging BL) c2 w') = c2 /\
  fs (world_after (run (configure_logging BL) c2 w')) = fs w' /\
  create_all_calls (world_after (run (configure_logging BL) c2 w'))
    = create_all_calls w' /\
  lg_level (brute_logger (world_after (run (configure_logging BL) c2 w')))
    = lg_level (brute_logger w') /\
  exists added,
    lg_handlers (brute_logger w')
      = (lg_handlers (brute_logger w) ++ added)%list /\
    lg_handlers (brute_logger (world_after (run (configure_logging BL) c2 w')))
      = (lg_handlers (brute_logger w') ++ added)%list.
Proof.
  destruct c as [pc cb aj mj mt sv db lv li lg lf lo le eh ll vd sm].
  destruct c2 as [pc2 cb2 aj2 mj2 mt2 sv2 db2 lv2 li2 lg2 lf2 lo2 le2 eh2
                    ll2 vd2 sm2].
  cbn [log_valid log_invalid log_general log_file log_stdout log_stderr].
  intros Hok -> -> -> -> -> ->. revert Hok.
  unfold outcome, self_after, world_after, configure_logging.
  py_unfold. cbn.
  repeat (py_case; cbn in *; rewrite ?open_append_machine);
    intros Hok; try discriminate; intros ->; cbn.
  all: repeat match goal with
              | |- context [fs (open_append ?p ?w2)] =>
                  tryif constr_eq w2 w then fail
                  else
                    rewrite (open_append_again p w w2)
                      by (cbn; rewrite ?open_append_machine; reflexivity)
              end.
  all: rewrite ?open_append_machine, ?open_append_create_all_calls,
         ?open_append_logger; cbn.
  all: rewrite ?open_append_machine, ?open_append_create_all_calls,
         ?open_append_logger.
  all: repeat (split; [reflexivity|]).
  all: eexists; split;
    [ cbn; rewrite <- ?app_assoc; cbn;
      first [reflexivity | symmetry; apply app_nil_r]
    | cbn; rewrite <- ?app_assoc; cbn; rewrite ?app_nil_r; reflexivity ].
Qed.

(** X7. [configure_logging] is not idempotent on the logger: a second call
    on the same object returns as the first did, leaves the object and the
    files as the first call left them, and attaches the handlers of the
    first call a second time. *)
Theorem configure_logging_twice
    (BL : BLModule) (c : Config) (w : World) :
  outcome (run (configure_logging BL) c w) = Ok tt ->
  let c' := self_after (run (configure_logging BL) c w) in
  let w' := world_after (run (configure_logging BL) c w) in
  outcome (run (configure_logging BL) c' w') = Ok tt /\
  self_after (run (configure_logging BL) c' w') = c' /\
  fs (world_after (run (configure_logging BL) c' w')) = fs w' /\
  exists added,
    lg_handlers (brute_logger w')
      = (lg_handlers (brute_logger w) ++ added)%list /\
    lg_handlers (brute_logger (world_after (run (configure_logging BL) c' w')))
      = (lg_handlers (brute_logger w) ++ added ++ added)%list.
Proof.
  intros Hok c' w'.
  pose proof (configure_logging_frame BL c w) as (Hc & _).
  fold c' in Hc.
  assert (Hflags : log_valid c' = log_valid c /\
                   log_invalid c' = log_invalid c /\
                   log_general c' = log_general c /\
                   log_file c' = log_file c /\
                   log_stdout c' = log_stdout c /\
                   log_stderr c' = log_stderr c)
    by (rewrite Hc; repeat split; reflexivity).
  destruct Hflags as (Hv & Hi & Hg & Hf & Ho & He).
  destruct (configure_logging_again BL c c' w Hok Hv Hi Hg Hf Ho He eq_refl)
    as (Hok2 & Hself & Hfs & _ & _ & added & Hadd1 & Hadd2).
  fold w' in Hok2, Hself, Hfs, Hadd1, Hadd2.
  repeat (split; [assumption|]).
  exists added. split; [assumption|].
  rewrite Hadd2, Hadd1, <- app_assoc. reflexivity.
Qed.

Lemma configure_logging_twice_witness :
  exists added,
    length added = 2%nat /\
    lg_handlers (brute_logger (world_after
      (run (configure_logging a_BL)
         (self_after (run (configure_logging a_BL) full_logging_config
                          empty_world))
         (world_after (run (configure_logging a_BL) full_logging_config
                           empty_world)))))
      = (lg_handlers (brute_logger empty_world) ++ added ++ added)%list.
Proof.
  destruct (configure_logging_twice a_BL full_logging_config empty_world)
    as (_ & _ & _ & added & Hadd1 & Hadd2); [reflexivity|].
  exists added. split; [|exact Hadd2].
  change (lg_handlers (brute_logger empty_world)) with (@nil Handler) in Hadd1.
  cbn [app] in Hadd1. rewrite <- Hadd1. vm_compute. reflexivity.
Defined.

Lemma configure_logging_ok_iff (BL : BLModule) (c : Config) (w : World) :
  outcome (run (configure_logging BL) c w) = Ok tt <->
  (truthy (log_valid c) || truthy (log_invalid c) || truthy (log_general c)
     = true ->
   truthy (log_file c) = true ->
   exists q, fspath (log_file c) = Some q /\ can_open (machine w) q = true).
Proof.
  cl_cases c.
  all: split; try (intros; reflexivity); try (intros; eauto; fail).
  all: try discriminate.
  all: intros H; destruct H as (? & ? & ?); try reflexivity; congruence.
Qed.

Lemma configure_logging_raise (BL : BLModule) (c : Config) (w : World) :
  truthy (log_valid c) || truthy (log_invalid c) || truthy (log_general c)
    = true ->
  truthy (log_file c) = true ->
  fspath (log_file c) = None ->
  run (configure_logging BL) c w =
    (Raise (TypeError (class_of (log_file c))),
     (set_log_level (log_level (self_after (run (configure_logging BL) c w)))
        c, w)).
Proof.
  destruct c as [pc cb aj mj mt sv db lv li lg lf lo le eh ll vd sm].
  cbn [log_valid log_invalid log_general log_file].
  intros Hflags Hlf Hpath.
  unfold self_after, configure_logging. py_unfold. cbn.
  destruct (truthy lv), (truthy li), (truthy lg); cbn in *;
    try discriminate; rewrite Hlf; cbn; rewrite Hpath; reflexivity.
Qed.

(** ** [validate]: when it returns, and what it leaves when it does not *)

Lemma failed_assertion_none_iff (c : Config) :
  failed_assertion c = None <->
  (exists z, process_count c = PyInt z /\ z <> 0) /\
  truthy (db_file c) = true /\
  truthy (authentication_callback c) = true /\
  (truthy (exception_handlers c) = true ->
   class_of (exception_handlers c) = cls_dict).
Proof.
  unfold failed_assertion, class_is.
  destruct (truthy (process_count c)) eqn:Hpc; cbn.
  2: { split; [discriminate|]. intros ((z & Hz & Hnz) & _).
       rewrite Hz in Hpc. cbn in Hpc.
       apply negb_false_iff, Z.eqb_eq in Hpc. contradiction. }
  case_bool_decide as Hint; cbn.
  2: { split; [discriminate|]. intros ((z & Hz & _) & _).
       rewrite Hz in Hint. contradiction. }
  assert (Hz : exists z, process_count c = PyInt z /\ z <> 0).
  { destruct (process_count c) as [| |z| | | | | | | |]; try discriminate.
    exists z. split; [reflexivity|]. cbn in Hpc.
    apply negb_true_iff, Z.eqb_neq in Hpc. exact Hpc. }
  destruct (truthy (db_file c)); cbn;
    [|split; [discriminate|intros (_ & ? & _); discriminate]].
  destruct (truthy (authentication_callback c)); cbn;
    [|split; [discriminate|intros (_ & _ & ? & _); discriminate]].
  destruct (truthy (exception_handlers c)); cbn.
  - case_bool_decide as Hd; cbn.
    + split; auto.
    + split; [discriminate|]. intros (_ & _ & _ & Hd'). exfalso. auto.
  - split; auto. intros _. repeat split; auto. discriminate.
Qed.

Lemma validate_not_assertion_error
    (BL : BLModule) (c : Config) (w : World) :
  (forall msg, outcome (run (validate BL) c w) <> Raise (AssertionError msg))
  <-> failed_assertion c = None.
Proof.
  split.
  - intros Hne. destruct (failed_assertion c) as [m|] eqn:Hf; [|reflexivity].
    exfalso. apply (Hne m). apply validate_assertion_error_iff. exact Hf.
  - intros Hf msg Hm. apply validate_assertion_error_iff in Hm. congruence.
Qed.

Lemma store_phase_ok_iff (p : string) (w : World) :
  fst (store_phase p w) = None <->
  accepts_url (machine w) ("sqlite:///" ++ p) = true /\
  can_stat (machine w) p = true /\
  (fs w !! realpath (machine w) p = None ->
   is_Some (run_create_all (machine w) ("sqlite:///" ++ p) (fs w))).
Proof.
  unfold store_phase.
  destruct (accepts_url (machine w) _); cbn;
    [|split; [discriminate|intros (? & _); discriminate]].
  destruct (can_stat (machine w) p); cbn;
    [|split; [discriminate|intros (_ & ? & _); discriminate]].
  destruct (fs w !! realpath (machine w) p) as [f|] eqn:Hf.
  - rewrite bool_decide_eq_true_2 by eauto. cbn.
    split; [intros _; split; [reflexivity|]; split; [reflexivity|];
            discriminate | reflexivity].
  - rewrite bool_decide_eq_false_2 by (intros [? ?]; discriminate). cbn.
    destruct (run_create_all (machine w) _ (fs w)); cbn.
    + split; [intros _; split; [reflexivity|]; split; eauto | reflexivity].
    + split; [discriminate|]. intros (_ & _ & H).
      destruct (H eq_refl) as [? ?]. discriminate.
Qed.

(** X1. Past its assertions, [validate] returns exactly when [db_file] is
    a [str], [create_engine] accepts the url, [Path.exists] answers, the
    file exists or [create_all] succeeds in creating the store, and
    [log_file], when a level flag and [log_file] are set, names a file that
    can be opened. *)
Theorem validate_succeeds_iff (BL : BLModule) (c : Config) (w : World) :
  (forall msg, outcome (run (validate BL) c w) <> Raise (AssertionError msg)) ->
  (outcome (run (validate BL) c w) = Ok tt <->
   (exists p,
      db_file c = PyStr p /\
      accepts_url (machine w) ("sqlite:///" ++ p) = true /\
      can_stat (machine w) p = true /\
      (fs w !! realpath (machine w) p = None ->
       is_Some (run_create_all (machine w) ("sqlite:///" ++ p) (fs w)))) /\
   (truthy (log_valid c) || truthy (log_invalid c) || truthy (log_general c)
      = true ->
    truthy (log_file c) = true ->
    exists q, fspath (log_file c) = Some q /\ can_open (machine w) q = true)).
Proof.
  intros Hne. apply validate_not_assertion_error in Hne.
  rewrite (validate_after_assertions BL c w Hne). cbn.
  destruct (db_file c) as [| | | |p| | | | | |]; cbn.
  all: try (split; [discriminate|intros [(? & ? & _) _]; discriminate]).
  pose proof (store_phase_ok_iff p w) as Hstore.
  pose proof (store_phase_frame p w) as (Hm & _).
  destruct (store_phase p w) as [[e|] w1]; cbn in *.
  { split; [discriminate|].
    intros [(p' & [= <-] & H) _]. apply Hstore in H. discriminate. }
  match goal with
  | |- context [run (configure_logging BL) ?c2 w1] =>
      pose proof (configure_logging_ok_iff BL c2 w1) as Hcl;
      destruct (run (configure_logging BL) c2 w1) as [[[]|e] [c3 w3]]
  end; cbn in *; rewrite Hm in Hcl.
  - split; [intros _|reflexivity]. split.
    + exists p. split; [reflexivity|]. apply Hstore. reflexivity.
    + apply Hcl. reflexivity.
  - split; [discriminate|]. intros [_ Hlog]. apply Hcl in Hlog. discriminate.
Qed.

Lemma validate_succeeds_iff_witness :
  outcome (run (validate a_BL) full_logging_config empty_world) = Ok tt.
Proof.
  apply (validate_succeeds_iff a_BL full_logging_config empty_world).
  - intros msg. vm_compute. discriminate.
  - split.
    + exists "attack.db". repeat split. intros _. vm_compute. eauto.
    + intros _ _. exists "brute.log". split; reflexivity.
Defined.

(** X10. When the assertions pass and [db_file] is not a [str] (a path
    object, a number), [validate] raises the [TypeError] of the
    concatenation: the callback has been wrapped, and nothing else of the
    object and nothing of the world has changed. *)
Theorem validate_db_file_not_str
    (BL : BLModule) (c : Config) (w : World) :
  (forall msg, outcome (run (validate BL) c w) <> Raise (AssertionError msg)) ->
  (forall p, db_file c <> PyStr p) ->
  run (validate BL) c w =
    (Raise (TypeError (class_of (db_file c))),
     (set_authentication_callback
        (Callback (authentication_callback c) (authentication_jitter c)) c,
      w)).
Proof.
  intros Hne Hdb. apply validate_not_assertion_error in Hne.
  rewrite (validate_after_assertions BL c w Hne). cbn.
  destruct (db_file c) as [| | | |p| | | | | |]; try reflexivity.
  exfalso. apply (Hdb p). reflexivity.
Qed.

Lemma validate_db_file_not_str_witness :
  run (validate a_BL) path_db_config empty_world =
    (Raise (TypeError (class_of (db_file path_db_config))),
     (set_authentication_callback
        (Callback (authentication_callback path_db_config)
                  (authentication_jitter path_db_config)) path_db_config,
      empty_world)).
Proof.
  apply (validate_db_file_not_str a_BL path_db_config empty_world).
  - intros msg. vm_compute. discriminate.
  - intros p. vm_compute. discriminate.
Defined.




(** X11. A [log_file] that names no file is found late: with the
    assertions passed, a [str] [db_file] and a store that exists or was
    created, and a level flag set, [validate] raises the [TypeError] of
    [FileHandler] after the callback was wrapped and [session_maker]
    assigned.  [validated] keeps its value and the logger is untouched. *)
Theorem validate_bad_log_file
    (BL : BLModule) (c : Config) (w : World) (p : string) :
  (forall msg, outcome (run (validate BL) c w) <> Raise (AssertionError msg)) ->
  db_file c = PyStr p ->
  accepts_url (machine w) ("sqlite:///" ++ p) = true ->
  can_stat (machine w) p = true ->
  (fs w !! realpath (machine w) p = None ->
   is_Some (run_create_all (machine w) ("sqlite:///" ++ p) (fs w))) ->
  truthy (log_valid c) || truthy (log_invalid c) || truthy (log_general c)
    = true ->
  truthy (log_file c) = true ->
  fspath (log_file c) = None ->
  outcome (run (validate BL) c w)
    = Raise (TypeError (class_of (log_file c))) /\
  authentication_callback (self_after (run (validate BL) c w))
    = Callback (authentication_callback c) (authentication_jitter c) /\
  session_maker (self_after (run (validate BL) c w))
    = Some (PySessionMaker ("sqlite:///" ++ p)) /\
  validated (self_after (run (validate BL) c w)) = validated c /\
  brute_logger (world_after (run (validate BL) c w)) = brute_logger w.
Proof.
  intros Hne Hdb Hu Hs Hcreate Hflags Hlf Hpath.
  apply validate_not_assertion_error in Hne.
  rewrite (validate_after_assertions BL c w Hne). cbn. rewrite Hdb.
  pose proof (proj2 (store_phase_ok_iff p w) (conj Hu (conj Hs Hcreate)))
    as Hok.
  pose proof (store_phase_frame p w) as (_ & Hlg & _).
  destruct (store_phase p w) as [[e|] w1]; cbn in *; [discriminate|].
  match goal with
  | |- context [run (configure_logging BL) ?c2 ?w1] =>
      rewrite (configure_logging_raise BL c2 w1 Hflags Hlf Hpath)
  end.
  cbn. repeat split. exact Hlg.
Qed.

Lemma validate_bad_log_file_witness :
  outcome (run (validate a_BL) log_file_flag_config empty_world)
    = Raise (TypeError (class_of (log_file log_file_flag_config))) /\
  authentication_callback
    (self_after (run (validate a_BL) log_file_flag_config empty_world))
    = Callback (authentication_callback log_file_flag_config)
               (authentication_jitter log_file_flag_config) /\
  session_maker
    (self_after (run (validate a_BL) log_file_flag_config empty_world))
    = Some (PySessionMaker ("sqlite:///" ++ "attack.db")) /\
  validated (self_after (run (validate a_BL) log_file_flag_config empty_world))
    = validated log_file_flag_config /\
  brute_logger (world_after (run (validate a_BL) log_file_flag_config
                                 empty_world))
    = brute_logger empty_world.
Proof.
  apply (validate_bad_log_file a_BL log_file_flag_config empty_world
           "attack.db").
  - intros msg. vm_compute. discriminate.
  - reflexivity.
  - reflexivity.
  - reflexivity.
  - intros _. vm_compute. eauto.
  - reflexivity.
  - reflexivity.
  - reflexivity.
Defined.

(** X8. Whatever the outcome, the object after [validate] is the object
    before it with at most four attributes written:
    [authentication_callback], [log_level], [validated] and
    [session_maker].  The worker count, the jitters, [max_auth_tries],
    [stop_on_valid], [db_file], the logging flags and the handler table are
    never changed. *)
Theorem validate_writes_four_attributes
    (BL : BLModule) (c : Config) (w : World) :
  exists cb' level' validated' session_maker',
    self_after (run (validate BL) c w) =
      {| process_count := process_count c;
         authentication_callback := cb';
         authentication_jitter := authentication_jitter c;
         max_auth_jitter := max_auth_jitter c;
         max_auth_tries := max_auth_tries c;
         stop_on_valid := stop_on_valid c;
         db_file := db_file c;
         log_valid := log_valid c;
         log_invalid := log_invalid c;
         log_general := log_general c;
         log_file := log_file c;
         log_stdout := log_stdout c;
         log_stderr := log_stderr c;
         exception_handlers := exception_handlers c;
         log_level := level';
         validated := validated';
         session_maker := session_maker' |}.
Proof.
  destruct (failed_assertion c) as [m|] eqn:Hf.
  - rewrite (validate_assertion_fails BL c w m Hf).
    destruct c. repeat eexists.
  - rewrite (validate_after_assertions BL c w Hf). cbn.
    destruct (db_file c) as [| | | |p| | | | | |] eqn:Hdb; cbn;
      try (rewrite <- Hdb; repeat eexists; fail).
    destruct (store_phase p w) as [[e|] w1]; cbn;
      [rewrite <- Hdb; repeat eexists|].
    match goal with
    | |- context [run (configure_logging BL) ?c2 ?w1] =>
        pose proof (configure_logging_frame BL c2 w1) as (Hc & _);
        destruct (run (configure_logging BL) c2 w1) as [[|e] [c3 w3]]
    end; cbn in *; rewrite Hc, <- Hdb; repeat eexists.
Qed.


(** X2. The outcome of [validate] and what it does to the world are
    decided by [process_count], [db_file], the callback,
    [authentication_jitter], [exception_handlers], the six logging flags
    and [log_level]: two objects that agree on these validate or fail
    alike, whatever [max_auth_jitter], [max_auth_tries], [stop_on_valid],
    [validated] and [session_maker] hold. *)
Theorem validate_decided_by
    (BL : BLModule) (c1 c2 : Config) (w : World) :
  process_count c1 = process_count c2 ->
  db_file c1 = db_file c2 ->
  authentication_callback c1 = authentication_callback c2 ->
  authentication_jitter c1 = authentication_jitter c2 ->
  exception_handlers c1 = exception_handlers c2 ->
  log_valid c1 = log_valid c2 ->
  log_invalid c1 = log_invalid c2 ->
  log_general c1 = log_general c2 ->
  log_file c1 = log_file c2 ->
  log_stdout c1 = log_stdout c2 ->
  log_stderr c1 = log_stderr c2 ->
  log_level c1 = log_level c2 ->
  outcome (run (validate BL) c1 w) = outcome (run (validate BL) c2 w) /\
  world_after (run (validate BL) c1 w) = world_after (run (validate BL) c2 w).
Proof.
  intros Hpc Hdb Hcb Haj Heh Hv Hi Hg Hf Ho He Hl.
  assert (Hsame : failed_assertion c1 = failed_assertion c2).
  { unfold failed_assertion. rewrite Hpc, Hdb, Hcb, Heh. reflexivity. }
  destruct (failed_assertion c2) as [m|] eqn:Hf2.
  - rewrite (validate_assertion_fails BL c1 w m Hsame).
    rewrite (validate_assertion_fails BL c2 w m Hf2). split; reflexivity.
  - rewrite (validate_after_assertions BL c1 w Hsame).
    rewrite (validate_after_assertions BL c2 w Hf2). cbn. rewrite Hdb.
    destruct (db_file c2) as [| | | |p| | | | | |]; try (split; reflexivity).
    cbv zeta.
    destruct (store_phase p w) as [[e|] w1]; [split; reflexivity|].
    match goal with
    | |- context [run (configure_logging BL) ?a w1] =>
        match goal with
        | |- context [run (configure_logging BL) ?b w1] =>
            tryif constr_eq a b then fail
            else
              (pose proof (configure_logging_agree BL a b w1
                             Hv Hi Hg Hf Ho He Hl) as (Hout & Hw & _);
               unfold outcome, world_after in Hout, Hw;
               destruct (run (configure_logging BL) a w1)
                 as [[|e1] [c3 w3]];
               destruct (run (configure_logging BL) b w1)
                 as [[|e2] [c4 w4]])
        end
    end; cbn in *; try discriminate; subst; split; congruence.
Qed.

Lemma validate_decided_by_witness :
  outcome (run (validate a_BL) full_logging_config resumed_world)
    = outcome (run (validate a_BL) odd_logging_config resumed_world) /\
  world_after (run (validate a_BL) full_logging_config resumed_world)
    = world_after (run (validate a_BL) odd_logging_config resumed_world).
Proof.
  apply (validate_decided_by a_BL full_logging_config odd_logging_config
           resumed_world); reflexivity.
Defined.

(** The handlers [configure_logging] adds are decided by the logging flags
    and by what the machine lets it open. *)
Lemma configure_logging_added
    (BL : BLModule) (c1 c2 : Config) (w1 w2 : World) :
  log_valid c2 = log_valid c1 ->
  log_invalid c2 = log_invalid c1 ->
  log_general c2 = log_general c1 ->
  log_file c2 = log_file c1 ->
  log_stdout c2 = log_stdout c1 ->
  log_stderr c2 = log_stderr c1 ->
  machine w2 = machine w1 ->
  outcome (run (configure_logging BL) c1 w1) = Ok tt ->
  outcome (run (configure_logging BL) c2 w2) = Ok tt /\
  exists added,
    lg_handlers (brute_logger (world_after (run (configure_logging BL) c1 w1)))
      = (lg_handlers (brute_logger w1) ++ added)%list /\
    lg_handlers (brute_logger (world_after (run (configure_logging BL) c2 w2)))
      = (lg_handlers (brute_logger w2) ++ added)%list.
Proof.
  destruct c1 as [pc cb aj mj mt sv db lv li lg lf lo le eh ll vd sm].
  destruct c2 as [pc2 cb2 aj2 mj2 mt2 sv2 db2 lv2 li2 lg2 lf2 lo2 le2 eh2
                    ll2 vd2 sm2].
  cbn [log_valid log_invalid log_general log_file log_stdout log_stderr].
  intros -> -> -> -> -> -> Hm.
  unfold outcome, self_after, world_after, configure_logging.
  py_unfold. cbn.
  repeat (rewrite ?Hm; py_case; cbn in *); intros Hok; try discriminate.
  all: rewrite ?open_append_logger.
  all: split; [reflexivity|].
  all: eexists; split;
    [ cbn; rewrite <- ?app_assoc; cbn;
      first [reflexivity | symmetry; apply app_nil_r]
    | cbn; rewrite <- ?app_assoc; cbn; rewrite ?app_nil_r; reflexivity ].
Qed.

(** X4. [validate] is not idempotent.  When a second call on an object it
    has validated, in the world it left, returns too, it has wrapped the
    wrapper of the callback once more and attached the logging handlers a
    second time. *)
Theorem validate_twice (BL : BLModule) (c : Config) (w : World) :
  outcome (run (validate BL) c w) = Ok tt ->
  let c' := self_after (run (validate BL) c w) in
  let w' := world_after (run (validate BL) c w) in
  outcome (run (validate BL) c' w') = Ok tt ->
  authentication_callback (self_after (run (validate BL) c' w'))
    = Callback (Callback (authentication_callback c) (authentication_jitter c))
               (authentication_jitter c) /\
  exists added,
    lg_handlers (brute_logger w')
      = (lg_handlers (brute_logger w) ++ added)%list /\
    lg_handlers (brute_logger (world_after (run (validate BL) c' w')))
      = (lg_handlers (brute_logger w) ++ added ++ added)%list.
Proof.
  intros Hok.
  destruct (failed_assertion c) as [m|] eqn:Hf.
  { rewrite (validate_assertion_fails BL c w m Hf) in Hok. discriminate. }
  revert Hok. rewrite (validate_after_assertions BL c w Hf).
  destruct (db_file c) as [| | | |p| | | | | |] eqn:Hdb;
    cbv beta iota zeta;
    try (cbv beta iota delta [outcome fst]; discriminate).
  pose proof (store_phase_frame p w) as (Hm1 & Hlg1 & _).
  destruct (store_phase p w) as [[e0|] w1];
    [cbv beta iota delta [outcome fst]; discriminate|].
  cbn [snd] in Hm1, Hlg1.
  set (c2 := set_session_maker (PySessionMaker ("sqlite:///" ++ p))
               (set_authentication_callback
                  (Callback (authentication_callback c)
                            (authentication_jitter c)) c)).
  pose proof (configure_logging_frame BL c2 w1) as (Hc & _).
  destruct (run (configure_logging BL) c2 w1) as [[[]|e] [c3 w3]] eqn:Hcl;
    cbv beta iota zeta delta [outcome self_after world_after fst snd] in *;
    [|discriminate].
  intros _.
  (* the second call *)
  destruct (failed_assertion (set_validated true c3)) as [m|] eqn:Hf'.
  { rewrite (validate_assertion_fails BL _ w3 m Hf'). discriminate. }
  rewrite (validate_after_assertions BL _ w3 Hf').
  assert (Hdb3 : db_file (set_validated true c3) = PyStr p)
    by (rewrite Hc; exact Hdb).
  rewrite Hdb3. cbv zeta.
  pose proof (store_phase_frame p w3) as (Hm3 & Hlg3 & _).
  destruct (store_phase p w3) as [[e0|] w4]; [discriminate|].
  cbn [snd] in Hm3, Hlg3.
  (* its [configure_logging] adds what the first added *)
  assert (Hmachine : machine w3 = machine w1).
  { cut (machine (world_after (run (configure_logging BL) c2 w1))
         = machine w1).
    - rewrite Hcl. auto.
    - clear. generalize w1. intros w0. cl_cases c2; reflexivity. }
  match goal with
  | |- context [run (configure_logging BL) ?c4 w4] =>
      assert (Hargs :
        outcome (run (configure_logging BL) c2 w1) = Ok tt /\
        log_valid c4 = log_valid c2 /\
        log_invalid c4 = log_invalid c2 /\
        log_general c4 = log_general c2 /\
        log_file c4 = log_file c2 /\
        log_stdout c4 = log_stdout c2 /\
        log_stderr c4 = log_stderr c2 /\
        authentication_callback c4 =
          Callback (Callback (authentication_callback c)
                             (authentication_jitter c))
                   (authentication_jitter c))
        by (rewrite Hcl, Hc; repeat split; reflexivity);
      destruct Hargs as (Hok1 & Hv & Hi & Hg & Hlf & Ho & He & Hcb);
      pose proof (configure_logging_added BL c2 c4 w1 w4
                    Hv Hi Hg Hlf Ho He
                    (eq_trans (eq_trans Hm3 Hmachine) eq_refl) Hok1)
        as (Hok2 & added & Ha1 & Ha2);
      pose proof (configure_logging_frame BL c4 w4) as (Hc4 & _);
      rewrite Hcl in Ha1;
      destruct (run (configure_logging BL) c4 w4) as [[[]|e] [c5 w5]]
  end;
  cbv beta iota zeta delta [outcome self_after world_after fst snd] in *;
  [|discriminate].
  intros _. split.
  - rewrite Hc4. exact Hcb.
  - exists added. split.
    + rewrite Ha1, Hlg1. reflexivity.
    + rewrite Ha2, Hlg3, Ha1, Hlg1, <- app_assoc. reflexivity.
Qed.

Lemma validate_twice_witness :
  authentication_callback
    (self_after
       (run (validate a_BL)
          (self_after (run (validate a_BL) full_logging_config empty_world))
          (world_after (run (validate a_BL) full_logging_config empty_world))))
    = PyCallback (PyCallback a_function a_jitter) a_jitter /\
  length
    (lg_handlers (brute_logger (world_after
       (run (validate a_BL)
          (self_after (run (validate a_BL) full_logging_config empty_world))
          (world_after (run (validate a_BL) full_logging_config
                            empty_world))))))
    = 4%nat.
Proof.
  destruct (validate_twice a_BL full_logging_config empty_world)
    as (Hcb & added & Ha1 & Ha2);
    [vm_compute; reflexivity | vm_compute; reflexivity |].
  split; [exact Hcb|].
  rewrite Ha2.
  assert (Hadded : length added = 2%nat).
  { change (lg_handlers (brute_logger empty_world)) with (@nil Handler)
      in Ha1.
    cbn [app] in Ha1. rewrite <- Ha1. vm_compute. reflexivity. }
  rewrite !length_app, Hadded. reflexivity.
Defined.

(** ** [validate]: the logger and the files *)

Lemma configure_logging_logger_level
    (BL : BLModule) (c : Config) (w : World) :
  outcome (run (configure_logging BL) c w) = Ok tt ->
  lg_level (brute_logger (world_after (run (configure_logging BL) c w)))
    = log_level (self_after (run (configure_logging BL) c w)).
Proof. cl_cases c; intros H; try discriminate; reflexivity. Qed.

Lemma configure_logging_fs (BL : BLModule) (c : Config) (w : World) :
  fs (world_after (run (configure_logging BL) c w)) = fs w \/
  exists p,
    fspath (log_file c) = Some p /\
    fs (world_after (run (configure_logging BL) c w)) = fs (open_append p w).
Proof. cl_cases c; eauto. Qed.

(** X9. When [validate] returns, the level of the logger is the
    [log_level] of the object: the level chosen from the flags, or, with no
    flag set, the [log_level] the object had. *)
Theorem validate_logger_level (BL : BLModule) (c : Config) (w : World) :
  outcome (run (validate BL) c w) = Ok tt ->
  lg_level (brute_logger (world_after (run (validate BL) c w)))
    = log_level (self_after (run (validate BL) c w)) /\
  log_level (self_after (run (validate BL) c w)) =
    (if truthy (log_general c) then GENERAL_EVENTS BL
     else if truthy (log_invalid c) then CREDENTIAL_EVENTS BL
     else if truthy (log_valid c) then VALID_CREDENTIALS BL
     else log_level c).
Proof.
  destruct (failed_assertion c) as [m|] eqn:Hf.
  { rewrite (validate_assertion_fails BL c w m Hf). discriminate. }
  rewrite (validate_after_assertions BL c w Hf).
  destruct (db_file c) as [| | | |p| | | | | |]; cbv beta iota zeta;
    try (cbv beta iota delta [outcome fst]; discriminate).
  destruct (store_phase p w) as [[e0|] w1]; cbv beta iota zeta;
    [cbv beta iota delta [outcome fst]; discriminate|].
  match goal with
  | |- context [run (configure_logging BL) ?c2 ?w1] =>
      pose proof (configure_logging_logger_level BL c2 w1) as Hlg;
      assert (Hlevel :
        log_level (self_after (run (configure_logging BL) c2 w1)) =
          (if truthy (log_general c) then GENERAL_EVENTS BL
           else if truthy (log_invalid c) then CREDENTIAL_EVENTS BL
           else if truthy (log_valid c) then VALID_CREDENTIALS BL
           else log_level c))
        by (clear; generalize w1; intros w0; cl_cases c; reflexivity);
      destruct (run (configure_logging BL) c2 w1) as [[[]|e] [c3 w3]]
  end;
  cbv beta iota zeta delta [outcome self_after world_after fst snd] in *;
  [|discriminate].
  intros _. split; [apply Hlg; reflexivity|exact Hlevel].
Qed.

Lemma validate_logger_level_witness :
  lg_level (brute_logger (world_after
     (run (validate a_BL) full_logging_config empty_world)))
    = log_level (self_after (run (validate a_BL) full_logging_config
                                 empty_world)) /\
  log_level (self_after (run (validate a_BL) full_logging_config empty_world))
    = CREDENTIAL_EVENTS a_BL.
Proof.
  apply (validate_logger_level a_BL full_logging_config empty_world).
  vm_compute. reflexivity.
Defined.

Lemma store_phase_no_call (p : string) (w : World) :
  create_all_calls (snd (store_phase p w)) = create_all_calls w ->
  snd (store_phase p w) = w.
Proof.
  unfold store_phase.
  destruct (accepts_url (machine w) _); cbn; [|reflexivity].
  destruct (can_stat (machine w) p); cbn; [|reflexivity].
  case_bool_decide; cbn; [reflexivity|].
  destruct (run_create_all (machine w) _ (fs w)); cbn; intros Heq;
    apply (f_equal length) in Heq; rewrite length_app in Heq; cbn in Heq; lia.
Qed.

(** X12. As long as it does not call [create_all] (the store exists, or
    [validate] stops before), [validate] never removes or changes a file
    that exists, and the only file it can create is the log file, at the
    path [log_file] names, empty. *)
Theorem validate_files (BL : BLModule) (c : Config) (w : World) (q : string) :
  create_all_calls (world_after (run (validate BL) c w)) = create_all_calls w ->
  match fs w !! q with
  | Some f => fs (world_after (run (validate BL) c w)) !! q = Some f
  | None =>
      fs (world_after (run (validate BL) c w)) !! q = None \/
      exists p,
        fspath (log_file c) = Some p /\
        realpath (machine w) p = q /\
        fs (world_after (run (validate BL) c w)) !! q = Some (Text [])
  end.
Proof.
  destruct (failed_assertion c) as [m|] eqn:Hf.
  { rewrite (validate_assertion_fails BL c w m Hf).
    cbv beta iota delta [world_after snd]. destruct (fs w !! q); auto. }
  rewrite (validate_after_assertions BL c w Hf).
  destruct (db_file c) as [| | | |p| | | | | |] eqn:Hdb; cbv beta iota zeta;
    try (cbv beta iota delta [world_after snd]; destruct (fs w !! q); auto;
         fail).
  pose proof (store_phase_no_call p w) as Hsame.
  destruct (store_phase p w) as [[e|] w1];
    cbv beta iota zeta delta [world_after snd] in *.
  { intros Hcalls. rewrite (Hsame Hcalls). destruct (fs w !! q); auto. }
  match goal with
  | |- context [run (configure_logging BL) ?c2 w1] =>
      pose proof (configure_logging_frame BL c2 w1) as (_ & Hcl & _);
      pose proof (configure_logging_fs BL c2 w1) as Hfs;
      destruct (run (configure_logging BL) c2 w1) as [[[]|e] [c3 w3]]
  end;
  cbv beta iota zeta delta [world_after snd] in *.
  all: intros Hcalls; rewrite Hcalls in Hcl; symmetry in Hcl;
    rewrite (Hsame Hcl) in *; clear Hsame Hcl.
  all: destruct Hfs as [->|(s & Hs & ->)];
    [destruct (fs w !! q); auto|].
  all: rewrite open_append_lookup_full; destruct (fs w !! q); [reflexivity|].
  all: case_bool_decide; [right; exists s; auto|auto].
Qed.

Lemma validate_files_witness :
  fs (world_after (run (validate a_BL) full_logging_config resumed_world))
    !! "attack.db" = Some (Database [("admin", "hunter2")]) /\
  (fs (world_after (run (validate a_BL) full_logging_config resumed_world))
     !! "brute.log" = None \/
   exists p,
     fspath (log_file full_logging_config) = Some p /\
     realpath (machine resumed_world) p = "brute.log" /\
     fs (world_after (run (validate a_BL) full_logging_config resumed_world))
       !! "brute.log" = Some (Text [])).
Proof.
  split.
  - apply (validate_files a_BL full_logging_config resumed_world "attack.db").
    vm_compute. reflexivity.
  - apply (validate_files a_BL full_logging_config resumed_world "brute.log").
    vm_compute. reflexivity.
Defined.
